(** * SSD1680 e-paper driver (components/ssd1680_epaper/ssd1680_epaper.cpp)

    A shallow embedding of the driver: the packed frame buffer and its
    pixel addressing, the byte transport on the serial bus, the reset and
    busy handshake, and the controller sequences run by [setup] and
    [update].  Integers of the C++ code are [Z] with the wrap-around of
    their width written out; the frame buffer is a list of bytes read and
    updated by index; the hardware is seen through the trace of events the
    driver performs on pins, bus and clock. *)

From Stdlib Require Import ZArith Lia Bool.
From stdpp Require Import base list.

Local Open Scope Z_scope.

(** ** Machine integers *)

(** Conversion to [uint8_t] and to [uint32_t]. *)
Definition u8 (v : Z) : Z := v mod 256.
Definition u32 (v : Z) : Z := v mod 2 ^ 32.

(** ** Panel geometry (file-scope constants) *)

Definition WIDTH : Z := 128.
Definition HEIGHT : Z := 296.
Definition ALLSCREEN_BYTES : Z := u32 ((WIDTH * HEIGHT) `quot` 8).

(** Modelled from the spec: the header that declares [get_width_internal]
    and [get_height_internal] is missing; the panel has the fixed logical
    dimensions width = 128 and height = 296. *)
Definition get_width_internal : Z := WIDTH.
Definition get_height_internal : Z := HEIGHT.

(** Modelled from the spec: the framework's [Color] is missing; the driver
    only asks a colour whether it is on ([set_pixel(x, y, on: bool)]). *)
Record Color := { is_on : bool }.

Definition COLOR_ON : Color := {| is_on := true |}.
Definition COLOR_OFF : Color := {| is_on := false |}.

(** ** Frame buffer *)

Module FrameBuffer.

(** The two guards and the address computation of
    [draw_absolute_pixel_internal]: [None] when the call returns before
    touching the buffer, otherwise the byte index [pos] and the mask
    [bit] it is about to use.  [x / 8] and [x % 8] are C's truncating
    division and remainder. *)
Definition pixel_target (x y : Z) : option (Z * Z) :=
  if (x <? 0) || (x >=? get_width_internal) || (y <? 0) || (y >=? get_height_internal)
  then None
  else
    let pos := u32 (y * (WIDTH `quot` 8) + x `quot` 8) in
    let bit := u8 (Z.shiftr 0x80 (x `rem` 8)) in
    if pos >=? ALLSCREEN_BYTES then None else Some (pos, bit).

(** [buffer_[pos] |= bit] and [buffer_[pos] &= ~bit]. *)
Definition set_bits (bit b : Z) : Z := u8 (Z.lor b bit).
Definition clear_bits (bit b : Z) : Z := u8 (Z.land b (Z.lnot bit)).

(** A read-modify-write of one byte of the buffer.  An index outside the
    allocation is an out-of-bounds access: [None]. *)
Definition update_byte (pos : Z) (f : Z -> Z) (buf : list Z) : option (list Z) :=
  match buf !! Z.to_nat pos with
  | Some b => Some (<[Z.to_nat pos := f b]> buf)
  | None => None
  end.

Definition draw_absolute_pixel_internal (x y : Z) (color : Color) (buf : list Z)
  : option (list Z) :=
  match pixel_target x y with
  | None => Some buf
  | Some (pos, bit) =>
      if is_on color then update_byte pos (set_bits bit) buf
      else update_byte pos (clear_bits bit) buf
  end.

(** The addressing formula of the data model, used to read a pixel
    back: byte [y * (width / 8) + x / 8], mask [0x80 >> (x mod 8)]. *)
Definition byte_index (x y : Z) : Z := y * (WIDTH / 8) + x / 8.
Definition bitmask (x : Z) : Z := Z.shiftr 0x80 (x mod 8).

Definition read_pixel (x y : Z) (buf : list Z) : option bool :=
  match buf !! Z.to_nat (byte_index x y) with
  | Some b => Some (negb (Z.land b (bitmask x) =? 0))
  | None => None
  end.

(** The bit of a byte that a mask [0x80 >> k] selects. *)
Definition bit_of_column (x : Z) : Z := 7 - x mod 8.

Definition in_bounds (x y : Z) : Prop := 0 <= x < WIDTH /\ 0 <= y < HEIGHT.

(** The buffer as [setup] leaves it: [memset(buffer_, 0xFF, ALLSCREEN_BYTES)]. *)
Definition fresh : list Z := replicate (Z.to_nat ALLSCREEN_BYTES) 0xFF.

End FrameBuffer.

Export FrameBuffer.


(** ** The hardware as the driver sees it *)

Inductive pin := DC | RESET | BUSY.

(** One entry per effect on the outside world, in program order. *)
Inductive event :=
| GpioConfig (num : Z) (output : bool)   (* gpio_config: direction of a raw GPIO *)
| GpioSetLevel (num : Z) (level : bool)  (* gpio_set_level *)
| GpioGetLevel (num : Z)                 (* gpio_get_level *)
| PinSetup (p : pin)                     (* pin->setup() *)
| PinWrite (p : pin) (level : bool)      (* pin->digital_write(level) *)
| PinRead (p : pin) (level : bool)       (* pin->digital_read(), with what it returned *)
| SpiSetup                               (* spi_setup() *)
| SpiEnable                              (* enable() *)
| SpiDisable                             (* disable() *)
| SpiWriteByte (b : Z)                   (* write_byte(b) *)
| SpiWriteArray (bs : list Z)            (* write_array(data, len) *)
| Delay (ms : Z)                         (* delay(ms) *)
| FeedWdt.                               (* App.feed_wdt() *)

(** The driver object together with the part of the world its control
    flow depends on.  [reset_pin_] and [busy_pin_] are the optional pins
    (absent = [nullptr]); a configured busy line is the sequence of levels
    its successive reads return.  [clock] is the time in milliseconds
    since boot; [delay] is what advances it. *)
Record Driver := {
  reset_pin_ : bool;
  busy_pin_ : option (nat -> bool);
  initialized_ : bool;
  buffer_ : list Z;
  clock : Z;
  busy_reads : nat
}.

Definition set_initialized_ (v : bool) (d : Driver) : Driver :=
  {| reset_pin_ := reset_pin_ d; busy_pin_ := busy_pin_ d; initialized_ := v;
     buffer_ := buffer_ d; clock := clock d; busy_reads := busy_reads d |}.

Definition set_buffer_ (v : list Z) (d : Driver) : Driver :=
  {| reset_pin_ := reset_pin_ d; busy_pin_ := busy_pin_ d; initialized_ := initialized_ d;
     buffer_ := v; clock := clock d; busy_reads := busy_reads d |}.

Definition set_clock (v : Z) (d : Driver) : Driver :=
  {| reset_pin_ := reset_pin_ d; busy_pin_ := busy_pin_ d; initialized_ := initialized_ d;
     buffer_ := buffer_ d; clock := v; busy_reads := busy_reads d |}.

Definition set_busy_reads (v : nat) (d : Driver) : Driver :=
  {| reset_pin_ := reset_pin_ d; busy_pin_ := busy_pin_ d; initialized_ := initialized_ d;
     buffer_ := buffer_ d; clock := clock d; busy_reads := v |}.

(** ** A monad for the driver's methods

    A method runs on a driver state and either completes, with a result,
    the new state and the events it performed, or faults (a call through
    a null pin pointer, an access outside the buffer), or exhausts the
    fuel given to its polling loops. *)

Inductive outcome (A : Type) : Type :=
| Done (a : A) (d : Driver) (tr : list event)
| Fault
| OutOfFuel.

Arguments Done {A} a d tr.
Arguments Fault {A}.
Arguments OutOfFuel {A}.

Definition M (A : Type) : Type := Driver -> outcome A.

Definition prepend {A} (t : list event) (o : outcome A) : outcome A :=
  match o with
  | Done a d tr => Done a d (t ++ tr)
  | Fault => Fault
  | OutOfFuel => OutOfFuel
  end.

Definition ret {A} (a : A) : M A := fun d => Done a d [].

Definition bind {A B} (m : M A) (k : A -> M B) : M B :=
  fun d =>
    match m d with
    | Done a d1 t1 => prepend t1 (k a d1)
    | Fault => Fault
    | OutOfFuel => OutOfFuel
    end.

Declare Scope driver_scope.
Delimit Scope driver_scope with drv.
Bind Scope driver_scope with M.

Notation "x <- m ;; k" := (bind m (fun x => k))
  (at level 100, m at next level, k at level 200, right associativity) : driver_scope.
Notation "m ;; k" := (bind m (fun _ => k))
  (at level 100, k at level 200, right associativity) : driver_scope.

Local Open Scope driver_scope.

Definition emit (e : event) : M unit := fun d => Done tt d [e].
Definition fault {A} : M A := fun _ => Fault.
Definition out_of_fuel {A} : M A := fun _ => OutOfFuel.
Definition get_ {A} (f : Driver -> A) : M A := fun d => Done (f d) d [].
Definition modify_ (f : Driver -> Driver) : M unit := fun d => Done tt (f d) [].

(** [delay(ms)] and [millis()]: the clock is a [uint32_t]. *)
Definition delay (ms : Z) : M unit :=
  fun d => Done tt (set_clock (clock d + ms) d) [Delay ms].
Definition millis : M Z := get_ (fun d => u32 (clock d)).
Definition feed_wdt : M unit := emit FeedWdt.

(** [for (uint32_t i = 0; i < n; i++) body(i)] *)
Fixpoint for_range (i : Z) (count : nat) (body : Z -> M unit) : M unit :=
  match count with
  | O => ret tt
  | S count' => body i ;; for_range (i + 1) count' body
  end.

Definition for_upto (n : Z) (body : Z -> M unit) : M unit :=
  for_range 0 (Z.to_nat n) body.

(** ** Pins, bus and buffer accesses *)

Definition dc_pin_digital_write (level : bool) : M unit := emit (PinWrite DC level).

(** [this->reset_pin_->digital_write(level)]: a call through the pointer. *)
Definition reset_pin_digital_write (level : bool) : M unit :=
  fun d => if reset_pin_ d then Done tt d [PinWrite RESET level] else Fault.

(** [this->busy_pin_->digital_read()]: a call through the pointer; the
    line answers with its next level. *)
Definition busy_pin_digital_read : M bool :=
  fun d =>
    match busy_pin_ d with
    | Some line =>
        let level := line (busy_reads d) in
        Done level (set_busy_reads (S (busy_reads d)) d) [PinRead BUSY level]
    | None => Fault
    end.

Definition reset_pin_present : M bool := get_ reset_pin_.
Definition busy_pin_present : M bool := get_ (fun d => bool_decide (is_Some (busy_pin_ d))).

Definition enable : M unit := emit SpiEnable.
Definition disable : M unit := emit SpiDisable.
Definition write_byte (b : Z) : M unit := emit (SpiWriteByte b).
Definition write_array (bs : list Z) : M unit := emit (SpiWriteArray bs).

(** [this->buffer_[i]] as an rvalue. *)
Definition buffer_at (i : Z) : M Z :=
  fun d =>
    match buffer_ d !! Z.to_nat i with
    | Some b => Done b d []
    | None => Fault
    end.

(** Modelled from the spec: the framework's [init_internal_] is missing;
    it allocates the backing storage, a byte sequence of the length
    asked for (here cleared; [setup] overwrites every byte). *)
Definition init_internal_ (n : Z) : M unit :=
  modify_ (set_buffer_ (replicate (Z.to_nat n) 0)).

(** [memset(this->buffer_, v, n)] *)
Definition memset (v n : Z) : M unit :=
  fun d =>
    if (Z.to_nat n <=? length (buffer_ d))%nat
    then Done tt (set_buffer_ (replicate (Z.to_nat n) (u8 v) ++ drop (Z.to_nat n) (buffer_ d)) d) []
    else Fault.

(** ** The driver's methods *)

Definition setup : M unit :=
  emit (GpioConfig 7 true) ;;
  emit (GpioSetLevel 7 true) ;;
  delay 100 ;;
  emit (PinSetup DC) ;;
  dc_pin_digital_write false ;;
  r <- reset_pin_present ;;
  (if r then emit (PinSetup RESET) ;; reset_pin_digital_write true else ret tt) ;;
  b <- busy_pin_present ;;
  (if b then emit (PinSetup BUSY) else ret tt) ;;
  emit SpiSetup ;;
  init_internal_ ALLSCREEN_BYTES ;;
  memset 0xFF ALLSCREEN_BYTES ;;
  modify_ (set_initialized_ false).

Definition hw_reset_ : M unit :=
  r <- reset_pin_present ;;
  if negb r then ret tt
  else
    reset_pin_digital_write true ;;
    delay 10 ;;
    reset_pin_digital_write false ;;
    delay 10 ;;
    reset_pin_digital_write true ;;
    delay 10.

(** The [while] loop of [wait_until_idle_]; the result tells whether the
    loop left the method through its [return] (busy line stuck). *)
Fixpoint wait_until_idle_loop (fuel : nat) (start : Z) : M bool :=
  match fuel with
  | O => out_of_fuel
  | S fuel' =>
      busy <- busy_pin_digital_read ;;
      if busy then
        now <- millis ;;
        if u32 (now - start) >? 10000 then ret true
        else delay 10 ;; feed_wdt ;; wait_until_idle_loop fuel' start
      else ret false
  end.

Definition wait_until_idle_ (fuel : nat) : M unit :=
  b <- busy_pin_present ;;
  if negb b then delay 100
  else
    start <- millis ;;
    initial <- busy_pin_digital_read ;;
    timed_out <- wait_until_idle_loop fuel start ;;
    if timed_out then ret tt else delay 10.

Definition command_ (cmd : Z) : M unit :=
  dc_pin_digital_write false ;;
  enable ;;
  write_byte cmd ;;
  disable.

Definition data_ (data : Z) : M unit :=
  dc_pin_digital_write true ;;
  enable ;;
  write_byte data ;;
  disable.

Definition send_data_ (data : list Z) : M unit :=
  dc_pin_digital_write true ;;
  enable ;;
  write_array data ;;
  disable.

(** [while (busy_pin_ != nullptr && busy_pin_->digital_read()) {
       if (millis() - start > timeout) break; delay(step); App.feed_wdt(); }],
    the loop of [init_display_] (2000, 10) and of [full_update_] (5000, 100). *)
Fixpoint poll_while_busy (fuel : nat) (start timeout step : Z) : M unit :=
  match fuel with
  | O => out_of_fuel
  | S fuel' =>
      b <- busy_pin_present ;;
      if negb b then ret tt
      else
        busy <- busy_pin_digital_read ;;
        if negb busy then ret tt
        else
          now <- millis ;;
          if u32 (now - start) >? timeout then ret tt
          else delay step ;; feed_wdt ;; poll_while_busy fuel' start timeout step
  end.

(** [if (busy_pin_ != nullptr) ESP_LOGI(..., busy_pin_->digital_read())]:
    the log line reads the pin.  Log lines are modelled by the pin reads
    among their arguments only (logger at INFO or more verbose). *)
Definition log_busy_state : M unit :=
  b <- busy_pin_present ;;
  if b then _ <- busy_pin_digital_read ;; ret tt else ret tt.

Definition init_display_ (fuel : nat) : M unit :=
  log_busy_state ;;
  r <- reset_pin_present ;;
  (if r then
     reset_pin_digital_write true ;;
     delay 10 ;;
     log_busy_state ;;
     reset_pin_digital_write false ;;
     delay 10 ;;
     log_busy_state ;;
     reset_pin_digital_write true ;;
     delay 10 ;;
     log_busy_state
   else ret tt) ;;
  delay 100 ;;
  log_busy_state ;;
  command_ 0x12 ;;
  delay 20 ;;
  log_busy_state ;;
  start <- millis ;;
  poll_while_busy fuel start 2000 10 ;;
  command_ 0x01 ;;
  data_ 0x27 ;;
  data_ 0x01 ;;
  data_ 0x00 ;;
  command_ 0x11 ;;
  data_ 0x03 ;;
  command_ 0x44 ;;
  data_ 0x00 ;;
  data_ 0x0F ;;
  command_ 0x45 ;;
  data_ 0x00 ;;
  data_ 0x00 ;;
  data_ 0x27 ;;
  data_ 0x01 ;;
  command_ 0x3C ;;
  data_ 0x05 ;;
  command_ 0x18 ;;
  data_ 0x80 ;;
  command_ 0x4E ;;
  data_ 0x00 ;;
  command_ 0x4F ;;
  data_ 0x00 ;;
  data_ 0x00 ;;
  log_busy_state.

Definition full_update_ (fuel : nat) : M unit :=
  command_ 0x22 ;;
  data_ 0xF7 ;;
  command_ 0x20 ;;
  start <- millis ;;
  poll_while_busy fuel start 5000 100.

Definition display_frame_ (fuel : nat) : M unit :=
  r <- reset_pin_present ;;
  (if r then
     reset_pin_digital_write false ;;
     delay 10 ;;
     reset_pin_digital_write true ;;
     delay 10
   else ret tt) ;;
  wait_until_idle_ fuel ;;
  command_ 0x12 ;;
  delay 10 ;;
  wait_until_idle_ fuel ;;
  command_ 0x01 ;;
  data_ 0x27 ;;
  data_ 0x01 ;;
  data_ 0x00 ;;
  command_ 0x11 ;;
  data_ 0x03 ;;
  command_ 0x44 ;;
  data_ 0x00 ;;
  data_ 0x0F ;;
  command_ 0x45 ;;
  data_ 0x00 ;;
  data_ 0x00 ;;
  data_ 0x27 ;;
  data_ 0x01 ;;
  command_ 0x4E ;;
  data_ 0x00 ;;
  command_ 0x4F ;;
  data_ 0x00 ;;
  data_ 0x00 ;;
  command_ 0x24 ;;
  for_upto ALLSCREEN_BYTES (fun i => b <- buffer_at i ;; data_ (u8 (Z.lnot b))) ;;
  command_ 0x4E ;;
  data_ 0x00 ;;
  command_ 0x4F ;;
  data_ 0x00 ;;
  data_ 0x00 ;;
  command_ 0x26 ;;
  for_upto ALLSCREEN_BYTES (fun _ => data_ 0x00) ;;
  wait_until_idle_ fuel ;;
  full_update_ fuel.

(** [draw_absolute_pixel_internal] as a method on the driver's buffer. *)
Definition draw_pixel (x y : Z) (color : Color) : M unit :=
  fun d =>
    match draw_absolute_pixel_internal x y color (buffer_ d) with
    | Some buf' => Done tt (set_buffer_ buf' d) []
    | None => Fault
    end.

(** Modelled from the spec: the framework's [do_update_] is missing; it
    runs the host's rendering, which reaches this driver only through the
    pixel-set entry point.  [draws] are the pixel writes of one
    rendering pass. *)
Fixpoint do_update_ (draws : list (Z * Z * Color)) : M unit :=
  match draws with
  | [] => ret tt
  | (x, y, color) :: draws' => draw_pixel x y color ;; do_update_ draws'
  end.

(** [update()].  In the first-call branch the log line
    [ESP_LOGI(..., this->busy_pin_->digital_read())] reads the busy pin
    with no null check; the raw GPIO 47 probe follows. *)
Definition update (fuel : nat) (draws : list (Z * Z * Color)) : M unit :=
  i <- get_ initialized_ ;;
  (if negb i then
     _ <- busy_pin_digital_read ;;
     emit (GpioConfig 47 false) ;;
     emit (GpioGetLevel 47) ;;
     emit (GpioConfig 47 true) ;;
     emit (GpioSetLevel 47 true) ;;
     init_display_ fuel ;;
     modify_ (set_initialized_ true)
   else ret tt) ;;
  do_update_ draws ;;
  display_frame_ fuel.

(** [update()] called once per rendering pass of the list. *)
Fixpoint updates (fuel : nat) (passes : list (list (Z * Z * Color))) : M unit :=
  match passes with
  | [] => ret tt
  | draws :: passes' => update fuel draws ;; updates fuel passes'
  end.

(** A driver object before [setup()]: pins as configured, no buffer yet. *)
Definition power_on (reset : bool) (busy : option (nat -> bool)) (t0 : Z) : Driver :=
  {| reset_pin_ := reset; busy_pin_ := busy; initialized_ := false;
     buffer_ := []; clock := t0; busy_reads := 0 |}.

(** Fuel that is enough for every polling loop of the driver. *)
Definition enough_fuel : nat := 1002.

(** ** Views of a trace *)

Definition trace_of {A} (o : outcome A) : list event :=
  match o with
  | Done _ _ tr => tr
  | Fault | OutOfFuel => []
  end.

(** Events of the busy handshake: reads of the busy line, sleeps and
    watchdog feeds.  They touch neither the bus nor the reset line. *)
Definition quiet (e : event) : bool :=
  match e with
  | PinRead BUSY _ | Delay _ | FeedWdt => true
  | _ => false
  end.

(** The bytes the chip receives, each with the level of the command/data
    selector line while it is clocked in ([false] = command). *)
Fixpoint wire (dc : bool) (tr : list event) : list (bool * Z) :=
  match tr with
  | [] => []
  | PinWrite DC level :: tr' => wire level tr'
  | SpiWriteByte b :: tr' => (dc, b) :: wire dc tr'
  | SpiWriteArray bs :: tr' => map (pair dc) bs ++ wire dc tr'
  | _ :: tr' => wire dc tr'
  end.

(** The received bytes as an ordered list of (opcode, payload) pairs. *)
Fixpoint payload (bytes : list (bool * Z)) : list Z :=
  match bytes with
  | (true, b) :: bytes' => b :: payload bytes'
  | _ => []
  end.

Fixpoint commands (bytes : list (bool * Z)) : list (Z * list Z) :=
  match bytes with
  | [] => []
  | (false, opcode) :: bytes' => (opcode, payload bytes') :: commands bytes'
  | (true, _) :: bytes' => commands bytes'
  end.

Definition captured (tr : list event) : list (Z * list Z) := commands (wire false tr).

(** The scoped bus transactions: for each [enable() ... disable()] pair,
    the selector level and the bytes written inside it. *)
Fixpoint transactions (dc : bool) (open : option (list Z)) (tr : list event)
  : list (bool * list Z) :=
  match tr with
  | [] => []
  | PinWrite DC level :: tr' => transactions level open tr'
  | SpiEnable :: tr' => transactions dc (Some []) tr'
  | SpiWriteByte b :: tr' => transactions dc (option_map (fun bs => bs ++ [b]) open) tr'
  | SpiWriteArray bs' :: tr' => transactions dc (option_map (fun bs => bs ++ bs') open) tr'
  | SpiDisable :: tr' =>
      match open with
      | Some bs => (dc, bs) :: transactions dc None tr'
      | None => transactions dc None tr'
      end
  | _ :: tr' => transactions dc open tr'
  end.

(** The levels written to the reset line, in order. *)
Fixpoint reset_writes (tr : list event) : list bool :=
  match tr with
  | [] => []
  | PinWrite RESET level :: tr' => level :: reset_writes tr'
  | _ :: tr' => reset_writes tr'
  end.

(** Total time slept in a trace. *)
Fixpoint slept (tr : list event) : Z :=
  match tr with
  | [] => 0
  | Delay ms :: tr' => ms + slept tr'
  | _ :: tr' => slept tr'
  end.

(** The events of one [command_] and of one [data_] call. *)
Definition command_events (cmd : Z) : list event :=
  [PinWrite DC false; SpiEnable; SpiWriteByte cmd; SpiDisable].
Definition data_events (data : Z) : list event :=
  [PinWrite DC true; SpiEnable; SpiWriteByte data; SpiDisable].

(** The 8-bit complement [~b] of a buffer byte, as [data_] receives it. *)
Definition inverted (b : Z) : Z := u8 (Z.lnot b).

(** What the driver keeps across the handshake: pins, flag and buffer. *)
Definition same_driver (d d' : Driver) : Prop :=
  reset_pin_ d' = reset_pin_ d /\ busy_pin_ d' = busy_pin_ d
  /\ initialized_ d' = initialized_ d /\ buffer_ d' = buffer_ d.

(** A method that only performs the busy handshake: it completes, moves
    nothing but the clock and the read position of the busy line, performs
    only quiet events, and sleeps at most [bound] milliseconds. *)
Definition returns_quietly (m : M unit) (d : Driver) (bound : Z) : Prop :=
  exists c r tr,
    m d = Done tt (set_busy_reads r (set_clock c d)) tr
    /\ forallb quiet tr = true
    /\ c = clock d + slept tr
    /\ 0 <= slept tr <= bound.

(** One turn of the polling loop of [wait_until_idle_] on a busy line
    that reads busy. *)
Definition stuck_poll : list event := [PinRead BUSY true; Delay 10; FeedWdt].

(** The events that are not part of the handshake. *)
Fixpoint loud (tr : list event) : list event :=
  match tr with
  | [] => []
  | e :: tr' => if quiet e then loud tr' else e :: loud tr'
  end.

(** ** The event sequences of the controller *)

(** The reset pulse at the start of [display_frame_]. *)
Definition reset_pulse_events : list event :=
  [PinWrite RESET false; Delay 10; PinWrite RESET true; Delay 10].

(** Driver output control, data entry mode and the two RAM windows. *)
Definition window_events : list event :=
  command_events 0x01 ++ data_events 0x27 ++ data_events 0x01 ++ data_events 0x00
  ++ command_events 0x11 ++ data_events 0x03
  ++ command_events 0x44 ++ data_events 0x00 ++ data_events 0x0F
  ++ command_events 0x45 ++ data_events 0x00 ++ data_events 0x00
  ++ data_events 0x27 ++ data_events 0x01.

(** The RAM address counters set back to the origin. *)
Definition counter_events : list event :=
  command_events 0x4E ++ data_events 0x00
  ++ command_events 0x4F ++ data_events 0x00 ++ data_events 0x00.

(** Border waveform and temperature sensor, sent by [init_display_] only. *)
Definition panel_events : list event :=
  command_events 0x3C ++ data_events 0x05 ++ command_events 0x18 ++ data_events 0x80.

Definition refresh_events : list event :=
  command_events 0x22 ++ data_events 0xF7 ++ command_events 0x20.

Definition primary_plane_events (buf : list Z) : list event :=
  flat_map (fun b => data_events (inverted b)) buf.

Definition secondary_plane_events : list event :=
  concat (replicate (Z.to_nat ALLSCREEN_BYTES) (data_events 0x00)).

(** The trace of one [display_frame_]: [w1] .. [w4] are the events of its
    four waits on the busy line. *)
Definition frame_events (reset : bool) (w1 w2 w3 w4 : list event) (buf : list Z)
  : list event :=
  (if reset then reset_pulse_events else [])
  ++ w1
  ++ command_events 0x12 ++ [Delay 10]
  ++ w2
  ++ window_events ++ counter_events
  ++ command_events 0x24 ++ primary_plane_events buf
  ++ counter_events
  ++ command_events 0x26 ++ secondary_plane_events
  ++ w3
  ++ refresh_events
  ++ w4.

(** The events of [init_display_] outside its handshake. *)
Definition init_loud_events (reset : bool) : list event :=
  (if reset then [PinWrite RESET true; PinWrite RESET false; PinWrite RESET true] else [])
  ++ command_events 0x12
  ++ window_events ++ panel_events ++ counter_events.

(** The raw GPIO probe at the start of the first [update()]. *)
Definition probe_events : list event :=
  [GpioConfig 47 false; GpioGetLevel 47; GpioConfig 47 true; GpioSetLevel 47 true].

(** ** The command sequences on the wire *)

(** The one-time configuration, as (opcode, payload) pairs. *)
Definition configuration_sequence : list (Z * list Z) :=
  [ (0x12, []);
    (0x01, [0x27; 0x01; 0x00]);
    (0x11, [0x03]);
    (0x44, [0x00; 0x0F]);
    (0x45, [0x00; 0x00; 0x27; 0x01]);
    (0x3C, [0x05]);
    (0x18, [0x80]);
    (0x4E, [0x00]);
    (0x4F, [0x00; 0x00]) ].

(** The commands of one write-and-refresh phase on a buffer. *)
Definition frame_sequence (buf : list Z) : list (Z * list Z) :=
  [ (0x12, []);
    (0x01, [0x27; 0x01; 0x00]);
    (0x11, [0x03]);
    (0x44, [0x00; 0x0F]);
    (0x45, [0x00; 0x00; 0x27; 0x01]);
    (0x4E, [0x00]);
    (0x4F, [0x00; 0x00]);
    (0x24, map inverted buf);
    (0x4E, [0x00]);
    (0x4F, [0x00; 0x00]);
    (0x26, replicate (Z.to_nat ALLSCREEN_BYTES) 0x00);
    (0x22, [0xF7]);
    (0x20, []) ].

(** The bytes of one write-and-refresh phase as the chip receives them. *)
Definition frame_wire (buf : list Z) : list (bool * Z) :=
  [ (false, 0x12);
    (false, 0x01); (true, 0x27); (true, 0x01); (true, 0x00);
    (false, 0x11); (true, 0x03);
    (false, 0x44); (true, 0x00); (true, 0x0F);
    (false, 0x45); (true, 0x00); (true, 0x00); (true, 0x27); (true, 0x01);
    (false, 0x4E); (true, 0x00);
    (false, 0x4F); (true, 0x00); (true, 0x00);
    (false, 0x24) ]
  ++ map (pair true) (map inverted buf)
  ++ [ (false, 0x4E); (true, 0x00);
       (false, 0x4F); (true, 0x00); (true, 0x00);
       (false, 0x26) ]
  ++ map (pair true) (replicate (Z.to_nat ALLSCREEN_BYTES) 0x00)
  ++ [ (false, 0x22); (true, 0xF7); (false, 0x20) ].

(** ** Runs of the driver *)

(** The driver as [setup()] leaves it. *)
Definition after_setup (d : Driver) : Driver :=
  set_initialized_ false (set_buffer_ fresh (set_clock (clock d + 100) d)).

Definition setup_events (d : Driver) : list event :=
  [GpioConfig 7 true; GpioSetLevel 7 true; Delay 100; PinSetup DC; PinWrite DC false]
  ++ (if reset_pin_ d then [PinSetup RESET; PinWrite RESET true] else [])
  ++ match busy_pin_ d with Some _ => [PinSetup BUSY] | None => [] end
  ++ [SpiSetup].

(** One write-and-refresh phase per rendering pass, and nothing else. *)
Fixpoint write_phases (fuel : nat) (passes : list (list (Z * Z * Color))) : M unit :=
  match passes with
  | [] => ret tt
  | draws :: passes' => do_update_ draws ;; display_frame_ fuel ;; write_phases fuel passes'
  end.

(** The buffer after the pixel writes of a rendering pass. *)
Fixpoint render (draws : list (Z * Z * Color)) (buf : list Z) : option (list Z) :=
  match draws with
  | [] => Some buf
  | (x, y, color) :: draws' =>
      match draw_absolute_pixel_internal x y color buf with
      | Some buf' => render draws' buf'
      | None => None
      end
  end.

(** A board with both optional pins wired, its busy line idle, and one
    without a busy line. *)
Definition idle_line : nat -> bool := fun _ => false.
Definition full_board : Driver := power_on true (Some idle_line) 0.
Definition board_without_busy : Driver := power_on true None 0.

(** The bytes of the one-time configuration as the chip receives them. *)
Definition configuration_wire : list (bool * Z) :=
  [ (false, 0x12);
    (false, 0x01); (true, 0x27); (true, 0x01); (true, 0x00);
    (false, 0x11); (true, 0x03);
    (false, 0x44); (true, 0x00); (true, 0x0F);
    (false, 0x45); (true, 0x00); (true, 0x00); (true, 0x27); (true, 0x01);
    (false, 0x3C); (true, 0x05);
    (false, 0x18); (true, 0x80);
    (false, 0x4E); (true, 0x00);
    (false, 0x4F); (true, 0x00); (true, 0x00) ].

(** [tr] is the trace of one write-and-refresh phase on buffer [buf]. *)
Definition is_frame (reset : bool) (buf : list Z) (tr : list event) : Prop :=
  exists w1 w2 w3 w4,
    tr = frame_events reset w1 w2 w3 w4 buf
    /\ forallb quiet w1 = true /\ forallb quiet w2 = true
    /\ forallb quiet w3 = true /\ forallb quiet w4 = true.

(** ** Further notions for the properties of the methods *)

(** The byte a pixel write stores, from the byte it found. *)
Definition stored (x : Z) (color : Color) (b : Z) : Z :=
  if is_on color then set_bits (bitmask x) b else clear_bits (bitmask x) b.

(** How many commands of a capture carry a given opcode. *)
Definition opcode_count (opcode : Z) (cs : list (Z * list Z)) : nat :=
  length (List.filter (fun c => fst c =? opcode) cs).

(** One turn of the polling loop of [full_update_] on a busy line that
    reads busy. *)
Definition refresh_poll : list event := [PinRead BUSY true; Delay 100; FeedWdt].

(** ** Arithmetic of the addressing *)

Lemma ALLSCREEN_BYTES_eq : ALLSCREEN_BYTES = 4736.
Proof. reflexivity. Qed.

Lemma shiftr_0x80 r : 0 <= r < 8 -> Z.shiftr 0x80 r = 2 ^ (7 - r).
Proof.
  intros Hr.
  assert (r = 0 \/ r = 1 \/ r = 2 \/ r = 3 \/ r = 4 \/ r = 5 \/ r = 6 \/ r = 7) as Hc by lia.
  repeat (destruct Hc as [-> | Hc]; [reflexivity |]). subst r. reflexivity.
Qed.

Lemma bitmask_pow2 x : bitmask x = 2 ^ bit_of_column x.
Proof.
  unfold bitmask, bit_of_column. apply shiftr_0x80. apply Z.mod_pos_bound. lia.
Qed.

Lemma bit_of_column_range x : 0 <= bit_of_column x < 8.
Proof. unfold bit_of_column. pose proof (Z.mod_pos_bound x 8). lia. Qed.

Lemma pixel_target_in_bounds x y :
  in_bounds x y -> pixel_target x y = Some (byte_index x y, bitmask x).
Proof.
  unfold in_bounds, pixel_target, get_width_internal, get_height_internal, WIDTH, HEIGHT.
  intros [Hx Hy].
  assert ((x <? 0) = false) as -> by lia.
  assert ((x >=? 128) = false) as -> by lia.
  assert ((y <? 0) = false) as -> by lia.
  assert ((y >=? 296) = false) as -> by lia.
  cbn [orb].
  change (128 `quot` 8) with 16.
  rewrite (Z.quot_div_nonneg x 8) by lia.
  rewrite (Z.rem_mod_nonneg x 8) by lia.
  unfold byte_index, WIDTH. change (128 / 8) with 16.
  assert (0 <= x / 8 < 16) as Hq by (split; [apply Z.div_pos; lia | apply Z.div_lt_upper_bound; lia]).
  unfold u32. change (2 ^ 32) with 4294967296. rewrite Z.mod_small by lia.
  rewrite ALLSCREEN_BYTES_eq.
  assert ((y * 16 + x / 8 >=? 4736) = false) as -> by lia.
  f_equal. f_equal.
  unfold bitmask. rewrite shiftr_0x80 by (apply Z.mod_pos_bound; lia).
  unfold u8. apply Z.mod_small.
  pose proof (Z.mod_pos_bound x 8).
  split; [apply Z.pow_nonneg; lia |].
  change 256 with (2 ^ 8). apply Z.pow_lt_mono_r; lia.
Qed.

Lemma pixel_target_out_of_bounds x y :
  x < 0 \/ x >= WIDTH \/ y < 0 \/ y >= HEIGHT -> pixel_target x y = None.
Proof.
  unfold pixel_target, get_width_internal, get_height_internal, WIDTH, HEIGHT.
  intros H.
  destruct (x <? 0) eqn:E1; [reflexivity |].
  destruct (x >=? 128) eqn:E2; [reflexivity |].
  destruct (y <? 0) eqn:E3; [reflexivity |].
  destruct (y >=? 296) eqn:E4; [reflexivity |].
  lia.
Qed.

Lemma byte_index_range x y : in_bounds x y -> 0 <= byte_index x y < ALLSCREEN_BYTES.
Proof.
  unfold in_bounds, byte_index, WIDTH, HEIGHT. rewrite ALLSCREEN_BYTES_eq.
  intros [Hx Hy]. change (128 / 8) with 16.
  assert (0 <= x / 8 < 16) by (split; [apply Z.div_pos; lia | apply Z.div_lt_upper_bound; lia]).
  lia.
Qed.

(** ** Bits of the byte a pixel write produces *)

Lemma u8_testbit v k : 0 <= k < 8 -> Z.testbit (u8 v) k = Z.testbit v k.
Proof.
  intros Hk. unfold u8. change 256 with (2 ^ 8).
  apply Z.mod_pow2_bits_low. lia.
Qed.

Lemma set_bits_testbit j b k :
  0 <= j -> 0 <= k < 8 ->
  Z.testbit (set_bits (2 ^ j) b) k = Z.testbit b k || (j =? k).
Proof.
  intros Hj Hk. unfold set_bits.
  rewrite u8_testbit, Z.lor_spec, Z.pow2_bits_eqb by lia. reflexivity.
Qed.

Lemma clear_bits_testbit j b k :
  0 <= j -> 0 <= k < 8 ->
  Z.testbit (clear_bits (2 ^ j) b) k = Z.testbit b k && negb (j =? k).
Proof.
  intros Hj Hk. unfold clear_bits.
  rewrite u8_testbit, Z.land_spec, Z.lnot_spec, Z.pow2_bits_eqb by lia. reflexivity.
Qed.

Lemma land_pow2_testbit b j : 0 <= j -> negb (Z.land b (2 ^ j) =? 0) = Z.testbit b j.
Proof.
  intros Hj.
  destruct (Z.testbit b j) eqn:Hb.
  - apply negb_true_iff, Z.eqb_neq. intros H0.
    assert (Z.testbit (Z.land b (2 ^ j)) j = true) as Ht
      by (rewrite Z.land_spec, Hb, Z.pow2_bits_true by lia; reflexivity).
    rewrite H0, Z.bits_0 in Ht. discriminate.
  - apply negb_false_iff, Z.eqb_eq. apply Z.bits_inj'. intros n Hn.
    rewrite Z.land_spec, Z.bits_0, Z.pow2_bits_eqb by lia.
    destruct (Z.eqb_spec j n) as [-> | _]; [rewrite Hb; reflexivity | apply andb_false_r].
Qed.

Lemma update_byte_in_range pos f (buf : list Z) :
  0 <= pos -> (Z.to_nat pos < length buf)%nat ->
  exists b, buf !! Z.to_nat pos = Some b
            /\ update_byte pos f buf = Some (<[Z.to_nat pos := f b]> buf).
Proof.
  intros Hpos Hlt. unfold update_byte.
  destruct (lookup_lt_is_Some_2 buf (Z.to_nat pos) Hlt) as [b Hb].
  exists b. rewrite Hb. split; reflexivity.
Qed.

(** What a pixel write does at in-range coordinates, in one equation. *)
Lemma draw_in_bounds x y color (buf : list Z) :
  in_bounds x y -> length buf = Z.to_nat ALLSCREEN_BYTES ->
  exists b, buf !! Z.to_nat (byte_index x y) = Some b
    /\ draw_absolute_pixel_internal x y color buf
       = Some (<[Z.to_nat (byte_index x y) :=
                   if is_on color then set_bits (bitmask x) b else clear_bits (bitmask x) b]>
                 buf).
Proof.
  intros Hin Hlen. pose proof (byte_index_range x y Hin) as Hr.
  unfold draw_absolute_pixel_internal. rewrite pixel_target_in_bounds by assumption.
  destruct (is_on color).
  - destruct (update_byte_in_range (byte_index x y) (set_bits (bitmask x)) buf)
      as (b & Hb & Hu); [lia | lia |]. eauto.
  - destruct (update_byte_in_range (byte_index x y) (clear_bits (bitmask x)) buf)
      as (b & Hb & Hu); [lia | lia |]. eauto.
Qed.

Lemma written_bit x color b :
  Z.testbit (if is_on color then set_bits (bitmask x) b else clear_bits (bitmask x) b)
            (bit_of_column x) = is_on color.
Proof.
  pose proof (bit_of_column_range x) as Hr. rewrite bitmask_pow2.
  destruct (is_on color).
  - rewrite set_bits_testbit, Z.eqb_refl by lia. apply orb_true_r.
  - rewrite clear_bits_testbit, Z.eqb_refl by lia. apply andb_false_r.
Qed.

Lemma other_bits x color b k :
  0 <= k < 8 -> k <> bit_of_column x ->
  Z.testbit (if is_on color then set_bits (bitmask x) b else clear_bits (bitmask x) b) k
  = Z.testbit b k.
Proof.
  intros Hk Hne. pose proof (bit_of_column_range x) as Hr. rewrite bitmask_pow2.
  assert ((bit_of_column x =? k) = false) as He by lia.
  destruct (is_on color).
  - rewrite set_bits_testbit, He by lia. apply orb_false_r.
  - rewrite clear_bits_testbit, He by lia. apply andb_true_r.
Qed.

Lemma draw_length x y color (buf buf' : list Z) :
  draw_absolute_pixel_internal x y color buf = Some buf' ->
  length buf' = length buf.
Proof.
  unfold draw_absolute_pixel_internal, update_byte.
  destruct (pixel_target x y) as [[pos bit] |]; [| congruence].
  destruct (is_on color); destruct (buf !! Z.to_nat pos); intros [= <-];
    apply length_insert.
Qed.

(** The second guard alone bounds the index that is written. *)
Lemma pixel_target_guard x y pos bit :
  pixel_target x y = Some (pos, bit) -> 0 <= pos < ALLSCREEN_BYTES.
Proof.
  unfold pixel_target.
  destruct (_ || _); [discriminate |]. cbv zeta.
  destruct (_ >=? ALLSCREEN_BYTES) eqn:Hg; [discriminate |].
  intros [= <- _]. split; [| lia].
  unfold u32. apply Z.mod_pos_bound. reflexivity.
Qed.

(** The first guard alone: a target exists only for in-range coordinates. *)
Lemma pixel_target_checked x y pos bit :
  pixel_target x y = Some (pos, bit) -> in_bounds x y.
Proof.
  intros H. unfold in_bounds.
  destruct (Z.lt_ge_cases x 0); [rewrite pixel_target_out_of_bounds in H by lia; discriminate |].
  destruct (Z.lt_ge_cases x WIDTH); [| rewrite pixel_target_out_of_bounds in H by lia; discriminate].
  destruct (Z.lt_ge_cases y 0); [rewrite pixel_target_out_of_bounds in H by lia; discriminate |].
  destruct (Z.lt_ge_cases y HEIGHT); [| rewrite pixel_target_out_of_bounds in H by lia; discriminate].
  lia.
Qed.

(** ** The monad *)

Lemma bind_done {A B} (m : M A) (k : A -> M B) d a d1 t1 :
  m d = Done a d1 t1 -> bind m k d = prepend t1 (k a d1).
Proof. intros H. unfold bind. rewrite H. reflexivity. Qed.

Lemma prepend_done {A} t (o : outcome A) a d tr :
  o = Done a d tr -> prepend t o = Done a d (t ++ tr).
Proof. intros ->. reflexivity. Qed.

Lemma same_driver_refl d : same_driver d d.
Proof. repeat split. Qed.

Lemma same_driver_trans d1 d2 d3 :
  same_driver d1 d2 -> same_driver d2 d3 -> same_driver d1 d3.
Proof.
  unfold same_driver. intros (? & ? & ? & ?) (? & ? & ? & ?).
  repeat split; congruence.
Qed.

Lemma same_driver_clock d c : same_driver d (set_clock c d).
Proof. repeat split. Qed.

Lemma same_driver_reads d n : same_driver d (set_busy_reads n d).
Proof. repeat split. Qed.

Create HintDb driver.

#[local] Hint Resolve same_driver_refl same_driver_clock same_driver_reads : driver.

(** ** The clock *)

Lemma u32_elapsed c c0 : 0 <= c - c0 < 2 ^ 32 -> u32 (u32 c - u32 c0) = c - c0.
Proof.
  intros H. unfold u32.
  rewrite Zminus_mod_idemp_l, Zminus_mod_idemp_r. apply Z.mod_small. assumption.
Qed.

Lemma slept_app t1 t2 : slept (t1 ++ t2) = slept t1 + slept t2.
Proof.
  induction t1 as [| e t1 IH]; [reflexivity |].
  destruct e; cbn; rewrite ?IH; lia.
Qed.

(** ** The busy handshake terminates *)

(** The loop of [wait_until_idle_], entered [clock d - c0] milliseconds
    after [start] was taken, with fuel for the polls that remain. *)
Lemma wait_until_idle_loop_terminates line fuel : forall d c0,
  busy_pin_ d = Some line ->
  0 <= clock d - c0 <= 10010 ->
  10010 - (clock d - c0) < 10 * Z.of_nat fuel ->
  exists b d' tr,
    wait_until_idle_loop fuel (u32 c0) d = Done b d' tr
    /\ same_driver d d'
    /\ forallb quiet tr = true
    /\ clock d' = clock d + slept tr
    /\ clock d <= clock d' <= c0 + 10010.
Proof.
  induction fuel as [| fuel IH]; intros d c0 Hline He Hfuel; [lia |].
  cbn [wait_until_idle_loop]. unfold bind at 1, busy_pin_digital_read at 1.
  rewrite Hline. cbv zeta.
  destruct (line (busy_reads d)) eqn:Hlevel.
  - unfold bind at 1, millis at 1, get_ at 1. cbn [clock set_busy_reads].
    rewrite u32_elapsed by (change (2 ^ 32) with 4294967296; lia).
    destruct (clock d - c0 >? 10000) eqn:Hgt.
    + do 3 eexists. split; [reflexivity |]. cbn.
      repeat split; auto with driver; lia.
    + destruct (IH (set_clock (clock d + 10) (set_busy_reads (S (busy_reads d)) d)) c0)
        as (b & d' & tr & Hrun & Hsame & Hq & Hclock & Hbound);
        [exact Hline | cbn; lia | cbn; lia |].
      unfold bind at 1, delay at 1. cbn [clock set_busy_reads prepend].
      unfold bind at 1, feed_wdt at 1, emit at 1. cbn [prepend].
      rewrite Hrun. cbn [prepend app].
      do 3 eexists. split; [reflexivity |]. cbn in Hclock, Hbound, Hsame |- *.
      repeat split; try assumption; try lia.
      all: destruct Hsame as (? & ? & ? & ?); assumption.
  - do 3 eexists. split; [reflexivity |]. cbn.
    repeat split; auto with driver; lia.
Qed.

Lemma busy_pin_present_some d line :
  busy_pin_ d = Some line -> busy_pin_present d = Done true d [].
Proof. intros H. unfold busy_pin_present, get_. rewrite H. reflexivity. Qed.

Lemma busy_pin_present_none d :
  busy_pin_ d = None -> busy_pin_present d = Done false d [].
Proof. intros H. unfold busy_pin_present, get_. rewrite H. reflexivity. Qed.

Lemma wait_until_idle__no_busy_pin fuel d :
  busy_pin_ d = None ->
  wait_until_idle_ fuel d = Done tt (set_clock (clock d + 100) d) [Delay 100].
Proof.
  intros H. unfold wait_until_idle_.
  rewrite (bind_done _ _ _ _ _ _ (busy_pin_present_none d H)). reflexivity.
Qed.

(** With enough fuel [wait_until_idle_] returns, whatever the busy line
    does, having slept at most 10020 ms (100 ms without a busy line). *)
Lemma wait_until_idle__terminates fuel d :
  (enough_fuel <= fuel)%nat ->
  exists d' tr,
    wait_until_idle_ fuel d = Done tt d' tr
    /\ same_driver d d'
    /\ forallb quiet tr = true
    /\ clock d' = clock d + slept tr
    /\ 0 <= slept tr <= 10020.
Proof.
  intros Hfuel. unfold enough_fuel in Hfuel.
  destruct (busy_pin_ d) as [line |] eqn:Hline.
  - unfold wait_until_idle_.
    rewrite (bind_done _ _ _ _ _ _ (busy_pin_present_some d line Hline)).
    cbn [negb prepend]. unfold bind at 1, millis at 1, get_ at 1.
    unfold bind at 1, busy_pin_digital_read at 1. rewrite Hline. cbv zeta.
    destruct (wait_until_idle_loop_terminates line fuel
                (set_busy_reads (S (busy_reads d)) d) (clock d))
      as (b & d' & tr & Hrun & Hsame & Hq & Hclock & Hbound);
      [exact Hline | cbn; lia | cbn; lia |].
    unfold bind at 1. rewrite Hrun.
    unfold same_driver in *. cbn in Hclock, Hbound, Hsame.
    destruct b; cbn [prepend ret delay app].
    + rewrite app_nil_r. do 2 eexists. split; [reflexivity |].
      cbn. intuition lia.
    + do 2 eexists. split; [reflexivity |].
      cbn. rewrite forallb_app, slept_app, Hq. cbn. intuition lia.
  - rewrite wait_until_idle__no_busy_pin by assumption.
    do 2 eexists. split; [reflexivity |]. cbn. repeat split; auto with driver; lia.
Qed.

Lemma same_driver_normal d d' :
  same_driver d d' -> d' = set_busy_reads (busy_reads d') (set_clock (clock d') d).
Proof.
  destruct d, d'. unfold same_driver. cbn. intros (-> & -> & -> & ->). reflexivity.
Qed.

Lemma wait_until_idle__quiet fuel d :
  (enough_fuel <= fuel)%nat -> returns_quietly (wait_until_idle_ fuel) d 10020.
Proof.
  intros Hfuel.
  destruct (wait_until_idle__terminates fuel d Hfuel) as (d' & tr & Hrun & Hs & Hq & Hc & Hb).
  exists (clock d'), (busy_reads d'), tr.
  rewrite <- (same_driver_normal d d' Hs). auto.
Qed.

(** A busy line that never reads idle: the loop polls every 10 ms and
    leaves once more than 10000 ms have elapsed. *)
Lemma wait_until_idle_loop_stuck line :
  (forall k, line k = true) ->
  forall n fuel d c0,
    busy_pin_ d = Some line ->
    clock d - c0 = 10010 - 10 * Z.of_nat n ->
    (n <= 1001)%nat -> (n < fuel)%nat ->
    exists d',
      wait_until_idle_loop fuel (u32 c0) d
      = Done true d' (concat (replicate n stuck_poll) ++ [PinRead BUSY true])
      /\ same_driver d d'
      /\ clock d' = c0 + 10010
      /\ busy_reads d' = (busy_reads d + n + 1)%nat.
Proof.
  intros Hstuck. induction n as [| n IH]; intros fuel d c0 Hline He Hn Hfuel.
  - destruct fuel as [| fuel]; [lia |].
    cbn [wait_until_idle_loop]. unfold bind at 1, busy_pin_digital_read at 1.
    rewrite Hline, Hstuck. cbv zeta.
    unfold bind at 1, millis at 1, get_ at 1. cbn [clock set_busy_reads].
    rewrite u32_elapsed by (change (2 ^ 32) with 4294967296; lia).
    assert ((clock d - c0 >? 10000) = true) as -> by lia.
    eexists. split; [reflexivity |]. cbn. repeat split; lia.
  - destruct fuel as [| fuel]; [lia |].
    cbn [wait_until_idle_loop]. unfold bind at 1, busy_pin_digital_read at 1.
    rewrite Hline, Hstuck. cbv zeta.
    unfold bind at 1, millis at 1, get_ at 1. cbn [clock set_busy_reads].
    rewrite u32_elapsed by (change (2 ^ 32) with 4294967296; lia).
    assert ((clock d - c0 >? 10000) = false) as -> by lia.
    destruct (IH fuel (set_clock (clock d + 10) (set_busy_reads (S (busy_reads d)) d)) c0)
      as (d' & Hrun & Hsame & Hclock & Hreads);
      [exact Hline | cbn; lia | lia | lia |].
    unfold bind at 1, delay at 1. cbn [clock set_busy_reads prepend].
    unfold bind at 1, feed_wdt at 1, emit at 1. cbn [prepend].
    rewrite Hrun. unfold same_driver in *. cbn in Hsame, Hreads |- *.
    eexists. split; [reflexivity |]. intuition lia.
Qed.

Lemma wait_until_idle__stuck fuel d line :
  (enough_fuel <= fuel)%nat ->
  busy_pin_ d = Some line -> (forall k, line k = true) ->
  exists d',
    wait_until_idle_ fuel d
    = Done tt d' (PinRead BUSY true :: concat (replicate 1001 stuck_poll) ++ [PinRead BUSY true])
    /\ same_driver d d'
    /\ clock d' = clock d + 10010.
Proof.
  unfold enough_fuel. intros Hfuel Hline Hstuck.
  unfold wait_until_idle_.
  rewrite (bind_done _ _ _ _ _ _ (busy_pin_present_some d line Hline)).
  cbn [negb prepend]. unfold bind at 1, millis at 1, get_ at 1.
  unfold bind at 1, busy_pin_digital_read at 1. rewrite Hline, Hstuck. cbv zeta.
  destruct (wait_until_idle_loop_stuck line Hstuck 1001 fuel
              (set_busy_reads (S (busy_reads d)) d) (clock d))
    as (d' & Hrun & Hsame & Hclock & Hreads); [exact Hline | cbn; lia | lia | lia |].
  unfold bind at 1. rewrite Hrun. cbn [prepend ret app].
  rewrite app_nil_r. eexists. split; [reflexivity |].
  unfold same_driver in *. cbn in Hsame. intuition lia.
Qed.

(** The polling loop of [init_display_] and [full_update_]. *)
Lemma poll_while_busy_terminates timeout step fuel : forall d c0,
  0 < step -> 0 <= timeout -> timeout + step < 2 ^ 32 ->
  0 <= clock d - c0 <= timeout + step ->
  timeout + step - (clock d - c0) < step * Z.of_nat fuel ->
  exists d' tr,
    poll_while_busy fuel (u32 c0) timeout step d = Done tt d' tr
    /\ same_driver d d'
    /\ forallb quiet tr = true
    /\ clock d' = clock d + slept tr
    /\ clock d <= clock d' <= c0 + timeout + step.
Proof.
  induction fuel as [| fuel IH]; intros d c0 Hstep Htimeout Hsmall He Hfuel; [lia |].
  cbn [poll_while_busy].
  destruct (busy_pin_ d) as [line |] eqn:Hline.
  - rewrite (bind_done _ _ _ _ _ _ (busy_pin_present_some d line Hline)).
    cbn [negb prepend app]. unfold bind at 1, busy_pin_digital_read at 1.
    rewrite Hline. cbv zeta.
    destruct (line (busy_reads d)) eqn:Hlevel; cbn [negb].
    + unfold bind at 1, millis at 1, get_ at 1. cbn [clock set_busy_reads].
      rewrite u32_elapsed by lia.
      destruct (clock d - c0 >? timeout) eqn:Hgt.
      * do 2 eexists. split; [reflexivity |]. cbn.
        repeat split; auto with driver; lia.
      * destruct (IH (set_clock (clock d + step) (set_busy_reads (S (busy_reads d)) d)) c0)
          as (d' & tr & Hrun & Hsame & Hq & Hclock & Hbound);
          [lia | lia | lia | cbn; lia | cbn; nia |].
        unfold bind at 1, delay at 1. cbn [clock set_busy_reads prepend].
        unfold bind at 1, feed_wdt at 1, emit at 1. cbn [prepend].
        rewrite Hrun. unfold same_driver in *. cbn in Hsame, Hclock, Hbound |- *.
        do 2 eexists. split; [reflexivity |]. cbn. intuition lia.
    + do 2 eexists. split; [reflexivity |]. cbn.
      repeat split; auto with driver; lia.
  - rewrite (bind_done _ _ _ _ _ _ (busy_pin_present_none d Hline)).
    do 2 eexists. split; [reflexivity |]. cbn.
    repeat split; auto with driver; lia.
Qed.

Lemma poll_while_busy_quiet fuel timeout step d :
  0 < step -> 0 <= timeout -> timeout + step < 2 ^ 32 ->
  timeout + step < step * Z.of_nat fuel ->
  returns_quietly (poll_while_busy fuel (u32 (clock d)) timeout step) d (timeout + step).
Proof.
  intros Hstep Htimeout Hsmall Hfuel. unfold returns_quietly.
  destruct (poll_while_busy_terminates timeout step fuel d (clock d))
    as (d' & tr & Hrun & Hs & Hq & Hc & Hb); [lia | lia | lia | lia | lia |].
  rewrite Hrun.
  exists (clock d'), (busy_reads d'), tr.
  rewrite <- (same_driver_normal d d' Hs). intuition lia.
Qed.

Lemma log_busy_state_quiet d : returns_quietly log_busy_state d 0.
Proof.
  unfold log_busy_state, returns_quietly.
  destruct (busy_pin_ d) as [line |] eqn:Hline.
  - rewrite (bind_done _ _ _ _ _ _ (busy_pin_present_some d line Hline)).
    unfold bind, busy_pin_digital_read. rewrite Hline. cbn.
    exists (clock d), (S (busy_reads d)), [PinRead BUSY (line (busy_reads d))].
    destruct d; cbn in *. repeat split; try reflexivity; lia.
  - rewrite (bind_done _ _ _ _ _ _ (busy_pin_present_none d Hline)). cbn.
    exists (clock d), (busy_reads d), [].
    destruct d; cbn in *. repeat split; try reflexivity; lia.
Qed.

(** ** Stepping through a method *)

Lemma bind_quiet {B} (m : M unit) (k : unit -> M B) d bound :
  returns_quietly m d bound ->
  exists c r w,
    bind m k d = prepend w (k tt (set_busy_reads r (set_clock c d)))
    /\ forallb quiet w = true
    /\ c = clock d + slept w
    /\ 0 <= slept w <= bound.
Proof.
  intros (c & r & w & Hrun & Hq & Hc & Hb).
  exists c, r, w. rewrite (bind_done _ _ _ _ _ _ Hrun). auto.
Qed.

Lemma bind_emit {B} e (k : unit -> M B) d :
  bind (emit e) k d = prepend [e] (k tt d).
Proof. reflexivity. Qed.

Lemma bind_delay {B} ms (k : unit -> M B) d :
  bind (delay ms) k d = prepend [Delay ms] (k tt (set_clock (clock d + ms) d)).
Proof. reflexivity. Qed.

Lemma bind_command_ {B} cmd (k : unit -> M B) d :
  bind (command_ cmd) k d = prepend (command_events cmd) (k tt d).
Proof. reflexivity. Qed.

Lemma bind_data_ {B} data (k : unit -> M B) d :
  bind (data_ data) k d = prepend (data_events data) (k tt d).
Proof. reflexivity. Qed.

Lemma bind_get_ {A B} (f : Driver -> A) (k : A -> M B) d :
  bind (get_ f) k d = k (f d) d.
Proof. unfold bind, get_. destruct (k (f d) d); reflexivity. Qed.

Lemma bind_modify_ {B} f (k : unit -> M B) d :
  bind (modify_ f) k d = k tt (f d).
Proof. unfold bind, modify_. destruct (k tt (f d)); reflexivity. Qed.

Lemma bind_assoc {A B C} (m : M A) (k : A -> M B) (h : B -> M C) d :
  bind (bind m k) h d = bind m (fun a => bind (k a) h) d.
Proof.
  unfold bind. destruct (m d) as [a d1 t1 | |]; try reflexivity.
  destruct (k a d1) as [b d2 t2 | |]; try reflexivity. cbn.
  destruct (h b d2) as [c d3 t3 | |]; try reflexivity. cbn.
  rewrite app_assoc. reflexivity.
Qed.

Lemma prepend_prepend {A} t1 t2 (o : outcome A) :
  prepend t1 (prepend t2 o) = prepend (t1 ++ t2) o.
Proof. destruct o; cbn; rewrite ?app_assoc; reflexivity. Qed.

(** ** The two plane transfers *)

Lemma for_range_primary : forall (rest pre : list Z) d,
  buffer_ d = pre ++ rest ->
  for_range (Z.of_nat (length pre)) (length rest)
            (fun i => b <- buffer_at i ;; data_ (u8 (Z.lnot b))) d
  = Done tt d (primary_plane_events rest).
Proof.
  induction rest as [| b rest IH]; intros pre d Hbuf; [reflexivity |].
  cbn [length for_range].
  assert (buffer_at (Z.of_nat (length pre)) d = Done b d []) as Hat.
  { unfold buffer_at. rewrite Nat2Z.id, Hbuf, list_lookup_middle by reflexivity. reflexivity. }
  rewrite bind_assoc, (bind_done _ _ _ _ _ _ Hat). cbn [prepend app].
  rewrite bind_data_.
  replace (Z.of_nat (length pre) + 1) with (Z.of_nat (length (pre ++ [b])))
    by (rewrite length_app; cbn; lia).
  rewrite (IH (pre ++ [b]) d) by (rewrite <- app_assoc; exact Hbuf).
  reflexivity.
Qed.

Lemma for_upto_primary d :
  length (buffer_ d) = Z.to_nat ALLSCREEN_BYTES ->
  for_upto ALLSCREEN_BYTES (fun i => b <- buffer_at i ;; data_ (u8 (Z.lnot b))) d
  = Done tt d (primary_plane_events (buffer_ d)).
Proof.
  intros Hlen. unfold for_upto. rewrite <- Hlen.
  exact (for_range_primary (buffer_ d) [] d eq_refl).
Qed.

Lemma for_range_secondary count : forall i d,
  for_range i count (fun _ => data_ 0x00) d
  = Done tt d (concat (replicate count (data_events 0x00))).
Proof.
  induction count as [| count IH]; intros i d; [reflexivity |].
  cbn [for_range replicate concat]. rewrite bind_data_, IH. reflexivity.
Qed.

Lemma for_upto_secondary d :
  for_upto ALLSCREEN_BYTES (fun _ => data_ 0x00) d = Done tt d secondary_plane_events.
Proof. apply for_range_secondary. Qed.

Lemma bind_reset_write {B} level (k : unit -> M B) d :
  reset_pin_ d = true ->
  bind (reset_pin_digital_write level) k d = prepend [PinWrite RESET level] (k tt d).
Proof. intros H. unfold bind, reset_pin_digital_write. rewrite H. reflexivity. Qed.

Lemma bind_ret {A B} (a : A) (k : A -> M B) d : bind (ret a) k d = k a d.
Proof. unfold bind, ret. destruct (k a d); reflexivity. Qed.

(** One step of a method: the first call of a sequence is replaced by its
    events and its effect on the state. *)
Ltac project :=
  cbn [reset_pin_ busy_pin_ initialized_ buffer_ clock busy_reads
       set_clock set_busy_reads set_buffer_ set_initialized_].

Ltac project_in H :=
  cbn [reset_pin_ busy_pin_ initialized_ buffer_ clock busy_reads
       set_clock set_busy_reads set_buffer_ set_initialized_] in H.

Ltac step :=
  cbv beta; project;
  first
    [ rewrite bind_assoc
    | rewrite bind_ret
    | rewrite bind_command_
    | rewrite bind_data_
    | rewrite bind_delay
    | rewrite bind_emit
    | rewrite bind_get_
    | rewrite bind_modify_
    | rewrite bind_reset_write by (cbn; assumption) ].

Ltac step_wait Hfuel :=
  cbv beta;
  match goal with
  | |- context [bind (wait_until_idle_ ?f) ?k ?st] =>
      let c := fresh "c" in
      let r := fresh "r" in
      let w := fresh "w" in
      let Hq := fresh "Hq" in
      let Hc := fresh "Hc" in
      let Hb := fresh "Hb" in
      destruct (bind_quiet _ k st _ (wait_until_idle__quiet f st Hfuel))
        as (c & r & w & -> & Hq & Hc & Hb);
      project_in Hc
  end.

Ltac step_primary Hlen :=
  cbv beta;
  match goal with
  | |- context [bind (for_upto ALLSCREEN_BYTES ?body) ?k ?st] =>
      rewrite (bind_done _ k st _ _ _ (for_upto_primary st Hlen))
  end.

Ltac step_secondary :=
  cbv beta;
  match goal with
  | |- context [bind (for_upto ALLSCREEN_BYTES ?body) ?k ?st] =>
      rewrite (bind_done _ k st _ _ _ (for_upto_secondary st))
  end.

Ltac step_log :=
  cbv beta;
  match goal with
  | |- context [bind log_busy_state ?k ?st] =>
      let c := fresh "c" in
      let r := fresh "r" in
      let w := fresh "w" in
      let Hq := fresh "Hq" in
      let Hc := fresh "Hc" in
      let Hb := fresh "Hb" in
      destruct (bind_quiet _ k st _ (log_busy_state_quiet st))
        as (c & r & w & -> & Hq & Hc & Hb);
      project_in Hc
  end.

(** ** The refresh *)

Lemma full_update__runs fuel d :
  (enough_fuel <= fuel)%nat ->
  exists c r w,
    full_update_ fuel d = Done tt (set_busy_reads r (set_clock c d)) (refresh_events ++ w)
    /\ forallb quiet w = true
    /\ c = clock d + slept w
    /\ 0 <= slept w <= 5100.
Proof.
  unfold enough_fuel. intros Hfuel. unfold full_update_, millis.
  do 4 step.
  destruct (poll_while_busy_quiet fuel 5000 100 d) as (c & r & w & Hrun & Hq & Hc & Hb);
    [lia | lia | reflexivity | lia |].
  cbv beta. rewrite Hrun. cbn [prepend].
  exists c, r, w. repeat split; try assumption; try lia.
Qed.

(** ** The write-and-refresh phase *)

(** [display_frame_] in continuation form: whatever holds of every
    completed run of the shape [frame_events] holds of the call. *)
Lemma display_frame__cases fuel d (P : outcome unit -> Prop) :
  (enough_fuel <= fuel)%nat ->
  length (buffer_ d) = Z.to_nat ALLSCREEN_BYTES ->
  (forall d' w1 w2 w3 w4,
      same_driver d d' ->
      forallb quiet w1 = true -> forallb quiet w2 = true ->
      forallb quiet w3 = true -> forallb quiet w4 = true ->
      clock d <= clock d' ->
      P (Done tt d' (frame_events (reset_pin_ d) w1 w2 w3 w4 (buffer_ d)))) ->
  P (display_frame_ fuel d).
Proof.
  intros Hfuel Hlen HP. unfold display_frame_, reset_pin_present.
  step.
  destruct (reset_pin_ d) eqn:Hreset.
  - repeat step. step_wait Hfuel. repeat step. step_wait Hfuel. repeat step.
    step_primary Hlen. repeat step. step_secondary.
    step_wait Hfuel. cbv beta.
    match goal with
    | |- context [full_update_ fuel ?st] =>
        destruct (full_update__runs fuel st Hfuel) as (c2 & r2 & w2 & -> & Hq2 & Hc2 & Hb2)
    end.
    cbn [prepend]. cbn in Hc, Hc0, Hc1, Hc2.
    apply (HP _ w w0 w1 w2); try assumption; [repeat split | cbn; lia].
  - repeat step. step_wait Hfuel. repeat step. step_wait Hfuel. repeat step.
    step_primary Hlen. repeat step. step_secondary.
    step_wait Hfuel. cbv beta.
    match goal with
    | |- context [full_update_ fuel ?st] =>
        destruct (full_update__runs fuel st Hfuel) as (c2 & r2 & w2 & -> & Hq2 & Hc2 & Hb2)
    end.
    cbn [prepend]. cbn in Hc, Hc0, Hc1, Hc2.
    apply (HP _ w w0 w1 w2); try assumption; [repeat split | cbn; lia].
Qed.

Lemma display_frame__runs fuel d :
  (enough_fuel <= fuel)%nat ->
  length (buffer_ d) = Z.to_nat ALLSCREEN_BYTES ->
  exists d' w1 w2 w3 w4,
    display_frame_ fuel d = Done tt d' (frame_events (reset_pin_ d) w1 w2 w3 w4 (buffer_ d))
    /\ same_driver d d'
    /\ forallb quiet w1 = true /\ forallb quiet w2 = true
    /\ forallb quiet w3 = true /\ forallb quiet w4 = true
    /\ clock d <= clock d'.
Proof.
  intros Hfuel Hlen. apply display_frame__cases; try assumption.
  intros d' w1 w2 w3 w4 Hs H1 H2 H3 H4 Hc.
  exists d', w1, w2, w3, w4. auto 10.
Qed.

(** ** Views of the controller's event sequences *)

Lemma wire_quiet_app w : forall dc rest,
  forallb quiet w = true -> wire dc (w ++ rest) = wire dc rest.
Proof.
  induction w as [| e w IH]; intros dc rest Hq; [reflexivity |].
  cbn in Hq. apply andb_prop in Hq as [He Hq].
  destruct e as [| | | | p l | p l | | | | | | |]; try discriminate He;
    cbn; apply IH; assumption.
Qed.

Lemma wire_quiet w dc : forallb quiet w = true -> wire dc w = [].
Proof.
  intros Hq. rewrite <- (app_nil_r w). rewrite wire_quiet_app by assumption. reflexivity.
Qed.

Lemma wire_command_events cmd dc rest :
  wire dc (command_events cmd ++ rest) = (false, cmd) :: wire false rest.
Proof. reflexivity. Qed.

Lemma wire_data_events data dc rest :
  wire dc (data_events data ++ rest) = (true, data) :: wire true rest.
Proof. reflexivity. Qed.

Lemma wire_primary_plane buf : forall dc cmd rest,
  wire dc (primary_plane_events buf ++ command_events cmd ++ rest)
  = map (pair true) (map inverted buf) ++ (false, cmd) :: wire false rest.
Proof.
  induction buf as [| b buf IH]; intros dc cmd rest; [reflexivity |].
  cbn [primary_plane_events flat_map map app].
  rewrite <- app_assoc, wire_data_events. cbn [app]. f_equal. apply IH.
Qed.

Lemma wire_data_run count data w : forall dc cmd rest,
  forallb quiet w = true ->
  wire dc (concat (replicate count (data_events data)) ++ w ++ command_events cmd ++ rest)
  = map (pair true) (replicate count data) ++ (false, cmd) :: wire false rest.
Proof.
  induction count as [| count IH]; intros dc cmd rest Hq;
    [cbn [replicate concat map app]; rewrite wire_quiet_app by assumption; reflexivity |].
  cbn [replicate concat map app].
  rewrite <- app_assoc, wire_data_events. cbn [app]. f_equal. apply IH. assumption.
Qed.

Lemma map_replicate {A B} (f : A -> B) count x :
  map f (replicate count x) = replicate count (f x).
Proof. induction count as [| count IH]; [reflexivity |]. cbn. f_equal. exact IH. Qed.

Lemma payload_data bytes rest :
  payload (map (pair true) bytes ++ rest) = bytes ++ payload rest.
Proof. induction bytes as [| b bytes IH]; [reflexivity |]. cbn. f_equal. exact IH. Qed.

Lemma commands_data bytes rest :
  commands (map (pair true) bytes ++ rest) = commands rest.
Proof. induction bytes as [| b bytes IH]; [reflexivity |]. cbn. exact IH. Qed.

Lemma reset_writes_quiet_app w rest :
  forallb quiet w = true -> reset_writes (w ++ rest) = reset_writes rest.
Proof.
  induction w as [| e w IH]; intros Hq; [reflexivity |].
  cbn in Hq. apply andb_prop in Hq as [He Hq].
  destruct e as [| | | | p l | p l | | | | | | |]; try discriminate He;
    cbn; apply IH; assumption.
Qed.

Lemma reset_writes_app t1 t2 : reset_writes (t1 ++ t2) = reset_writes t1 ++ reset_writes t2.
Proof.
  induction t1 as [| e t1 IH]; [reflexivity |].
  destruct e as [| | | | p l | | | | | | | |]; cbn; try exact IH.
  destruct p; cbn; rewrite ?IH; reflexivity.
Qed.

Lemma reset_writes_quiet w : forallb quiet w = true -> reset_writes w = [].
Proof.
  intros Hq. rewrite <- (app_nil_r w). rewrite reset_writes_quiet_app by assumption.
  reflexivity.
Qed.

Lemma reset_writes_primary_plane buf : reset_writes (primary_plane_events buf) = [].
Proof. induction buf as [| b buf IH]; [reflexivity |]. cbn. exact IH. Qed.

Lemma reset_writes_data_run count data :
  reset_writes (concat (replicate count (data_events data))) = [].
Proof. induction count as [| count IH]; [reflexivity |]. cbn. exact IH. Qed.

Lemma transactions_quiet_app w : forall dc open rest,
  forallb quiet w = true -> transactions dc open (w ++ rest) = transactions dc open rest.
Proof.
  induction w as [| e w IH]; intros dc open rest Hq; [reflexivity |].
  cbn in Hq. apply andb_prop in Hq as [He Hq].
  destruct e as [| | | | p l | p l | | | | | | |]; try discriminate He;
    cbn; apply IH; assumption.
Qed.

Lemma transactions_quiet w dc open : forallb quiet w = true -> transactions dc open w = [].
Proof.
  intros Hq. rewrite <- (app_nil_r w). rewrite transactions_quiet_app by assumption.
  reflexivity.
Qed.

Lemma transactions_command_events cmd dc open rest :
  transactions dc open (command_events cmd ++ rest)
  = (false, [cmd]) :: transactions false None rest.
Proof. reflexivity. Qed.

Lemma transactions_data_events data dc open rest :
  transactions dc open (data_events data ++ rest)
  = (true, [data]) :: transactions true None rest.
Proof. reflexivity. Qed.

Lemma transactions_primary_plane buf : forall dc open cmd rest,
  transactions dc open (primary_plane_events buf ++ command_events cmd ++ rest)
  = map (fun b => (true, [inverted b])) buf ++ (false, [cmd]) :: transactions false None rest.
Proof.
  induction buf as [| b buf IH]; intros dc open cmd rest; [reflexivity |].
  cbn [primary_plane_events flat_map map app].
  rewrite <- app_assoc, transactions_data_events. cbn [app]. f_equal. apply IH.
Qed.

Lemma transactions_data_run count data w : forall dc open cmd rest,
  forallb quiet w = true ->
  transactions dc open
    (concat (replicate count (data_events data)) ++ w ++ command_events cmd ++ rest)
  = replicate count (true, [data]) ++ (false, [cmd]) :: transactions false None rest.
Proof.
  induction count as [| count IH]; intros dc open cmd rest Hq;
    [cbn [replicate concat app]; rewrite transactions_quiet_app by assumption; reflexivity |].
  cbn [replicate concat app].
  rewrite <- app_assoc, transactions_data_events. cbn [app]. f_equal. apply IH. assumption.
Qed.

(** Normal form of a view over a controller sequence. *)
Ltac view_frame :=
  unfold frame_events, init_loud_events, window_events, counter_events, panel_events,
    refresh_events, reset_pulse_events, secondary_plane_events;
  rewrite <- ?app_assoc.

Lemma wire_frame_events_app reset w1 w2 w3 w4 buf dc rest :
  forallb quiet w1 = true -> forallb quiet w2 = true ->
  forallb quiet w3 = true -> forallb quiet w4 = true ->
  wire dc (frame_events reset w1 w2 w3 w4 buf ++ rest) = frame_wire buf ++ wire false rest.
Proof.
  intros H1 H2 H3 H4. unfold frame_wire. view_frame.
  generalize (Z.to_nat ALLSCREEN_BYTES). intros n.
  assert (forall dc rest, wire dc ((if reset then
            [PinWrite RESET false; Delay 10; PinWrite RESET true; Delay 10] else []) ++ rest)
          = wire dc rest) as -> by (destruct reset; reflexivity).
  rewrite (wire_quiet_app w1) by assumption.
  rewrite wire_command_events. cbn [app wire].
  rewrite (wire_quiet_app w2) by assumption.
  repeat first [rewrite wire_command_events | rewrite wire_data_events].
  rewrite wire_primary_plane.
  repeat first [rewrite wire_command_events | rewrite wire_data_events].
  rewrite (wire_data_run _ _ w3) by assumption.
  repeat first [rewrite wire_command_events | rewrite wire_data_events].
  rewrite (wire_quiet_app w4) by assumption.
  reflexivity.
Qed.

Lemma wire_frame_events reset w1 w2 w3 w4 buf dc :
  forallb quiet w1 = true -> forallb quiet w2 = true ->
  forallb quiet w3 = true -> forallb quiet w4 = true ->
  wire dc (frame_events reset w1 w2 w3 w4 buf) = frame_wire buf.
Proof.
  intros H1 H2 H3 H4.
  rewrite <- (app_nil_r (frame_events reset w1 w2 w3 w4 buf)).
  rewrite wire_frame_events_app by assumption. apply app_nil_r.
Qed.

Lemma commands_frame_wire_app buf rest :
  payload rest = [] ->
  commands (frame_wire buf ++ rest) = frame_sequence buf ++ commands rest.
Proof.
  intros Hrest. unfold frame_wire, frame_sequence.
  generalize (Z.to_nat ALLSCREEN_BYTES). intros n.
  rewrite <- ?app_assoc.
  repeat (cbn [commands payload app]; rewrite ?payload_data, ?commands_data).
  rewrite Hrest, !app_nil_r. reflexivity.
Qed.

Lemma commands_frame_wire buf : commands (frame_wire buf) = frame_sequence buf.
Proof.
  rewrite <- (app_nil_r (frame_wire buf)).
  rewrite commands_frame_wire_app by reflexivity. apply app_nil_r.
Qed.

Lemma payload_frame_wires bufs : payload (flat_map frame_wire bufs) = [].
Proof. destruct bufs; reflexivity. Qed.

Lemma commands_frame_wires bufs :
  commands (flat_map frame_wire bufs) = flat_map frame_sequence bufs.
Proof.
  induction bufs as [| buf bufs IH]; [reflexivity |].
  cbn [flat_map]. rewrite commands_frame_wire_app by apply payload_frame_wires.
  rewrite IH. reflexivity.
Qed.

Lemma wire_init_loud_events_app reset dc rest :
  wire dc (init_loud_events reset ++ rest) = configuration_wire ++ wire true rest.
Proof. destruct reset; reflexivity. Qed.

Lemma commands_configuration_wire_app rest :
  payload rest = [] ->
  commands (configuration_wire ++ rest) = configuration_sequence ++ commands rest.
Proof.
  intros Hrest. unfold configuration_wire, configuration_sequence.
  cbn [commands payload app]. rewrite Hrest. reflexivity.
Qed.

Lemma captured_frame_events reset w1 w2 w3 w4 buf :
  forallb quiet w1 = true -> forallb quiet w2 = true ->
  forallb quiet w3 = true -> forallb quiet w4 = true ->
  captured (frame_events reset w1 w2 w3 w4 buf) = frame_sequence buf.
Proof.
  intros H1 H2 H3 H4. unfold captured.
  rewrite wire_frame_events by assumption. apply commands_frame_wire.
Qed.

Lemma transactions_frame_events reset w1 w2 w3 w4 buf :
  forallb quiet w1 = true -> forallb quiet w2 = true ->
  forallb quiet w3 = true -> forallb quiet w4 = true ->
  transactions false None (frame_events reset w1 w2 w3 w4 buf)
  = map (fun t => (fst t, [snd t])) (frame_wire buf).
Proof.
  intros H1 H2 H3 H4. unfold frame_wire. view_frame.
  generalize (Z.to_nat ALLSCREEN_BYTES). intros n.
  assert (forall dc open rest, transactions dc open ((if reset then
            [PinWrite RESET false; Delay 10; PinWrite RESET true; Delay 10] else []) ++ rest)
          = transactions dc open rest) as -> by (destruct reset; reflexivity).
  rewrite (transactions_quiet_app w1) by assumption.
  rewrite transactions_command_events. cbn [app transactions].
  rewrite (transactions_quiet_app w2) by assumption.
  repeat first [rewrite transactions_command_events | rewrite transactions_data_events].
  rewrite transactions_primary_plane.
  repeat first [rewrite transactions_command_events | rewrite transactions_data_events].
  rewrite (transactions_data_run _ _ w3) by assumption.
  repeat first [rewrite transactions_command_events | rewrite transactions_data_events].
  rewrite (transactions_quiet w4) by assumption.
  repeat (cbn [map app fst snd]; rewrite ?map_app, ?map_map).
  rewrite map_replicate. reflexivity.
Qed.

Lemma reset_writes_frame_events reset w1 w2 w3 w4 buf :
  forallb quiet w1 = true -> forallb quiet w2 = true ->
  forallb quiet w3 = true -> forallb quiet w4 = true ->
  reset_writes (frame_events reset w1 w2 w3 w4 buf) = if reset then [false; true] else [].
Proof.
  intros H1 H2 H3 H4. unfold frame_events.
  rewrite !reset_writes_app, reset_writes_primary_plane.
  unfold secondary_plane_events. rewrite reset_writes_data_run.
  rewrite (reset_writes_quiet w1), (reset_writes_quiet w2), (reset_writes_quiet w3),
    (reset_writes_quiet w4) by assumption.
  destruct reset; reflexivity.
Qed.

(** ** The handshake is invisible to the views *)

Lemma loud_app t1 t2 : loud (t1 ++ t2) = loud t1 ++ loud t2.
Proof.
  induction t1 as [| e t1 IH]; [reflexivity |].
  cbn. destruct (quiet e); cbn; rewrite IH; reflexivity.
Qed.

Lemma loud_quiet w : forallb quiet w = true -> loud w = [].
Proof.
  induction w as [| e w IH]; intros Hq; [reflexivity |].
  cbn in Hq |- *. apply andb_prop in Hq as [-> Hq]. auto.
Qed.

Lemma wire_loud tr : forall dc, wire dc (loud tr) = wire dc tr.
Proof.
  induction tr as [| e tr IH]; intros dc; [reflexivity |].
  destruct e as [| | | | p l | p l | | | | | | |]; cbn; rewrite ?IH; try reflexivity;
    destruct p; cbn; rewrite ?IH; reflexivity.
Qed.

Lemma reset_writes_loud tr : reset_writes (loud tr) = reset_writes tr.
Proof.
  induction tr as [| e tr IH]; [reflexivity |].
  destruct e as [| | | | p l | p l | | | | | | |]; cbn; rewrite ?IH; try reflexivity;
    destruct p; cbn; rewrite ?IH; reflexivity.
Qed.

Ltac step_poll Hfuel :=
  cbv beta;
  match goal with
  | |- context [bind (poll_while_busy ?f _ ?timeout ?stp) ?k ?st] =>
      let c := fresh "c" in
      let r := fresh "r" in
      let w := fresh "w" in
      let Hq := fresh "Hq" in
      let Hc := fresh "Hc" in
      let Hb := fresh "Hb" in
      destruct (bind_quiet _ k st _
                  (poll_while_busy_quiet f timeout stp st
                     ltac:(lia) ltac:(lia) ltac:(reflexivity)
                     ltac:(unfold enough_fuel in Hfuel; lia)))
        as (c & r & w & -> & Hq & Hc & Hb);
      project_in Hc
  end.

(** ** The one-time configuration *)

Lemma init_display__cases fuel d (P : outcome unit -> Prop) :
  (enough_fuel <= fuel)%nat ->
  (forall d' tr,
      same_driver d d' ->
      loud tr = init_loud_events (reset_pin_ d) ->
      clock d <= clock d' ->
      P (Done tt d' tr)) ->
  P (init_display_ fuel d).
Proof.
  intros Hfuel HP. unfold init_display_, reset_pin_present, millis.
  step_log. step. project.
  destruct (reset_pin_ d) eqn:Hreset.
  - repeat step. step_log. repeat step. step_log. repeat step. step_log.
    repeat step. step_log. repeat step. step_log. repeat step.
    step_poll Hfuel. repeat step. cbv beta.
    match goal with
    | |- context [log_busy_state ?st] =>
        destruct (log_busy_state_quiet st) as (c6 & r6 & w6 & -> & Hq6 & Hc6 & Hb6)
    end.
    project_in Hc6. cbn [prepend].
    apply HP; [repeat split | | cbn; lia].
    rewrite !loud_app.
    repeat match goal with
           | H : forallb quiet ?w = true |- _ => rewrite (loud_quiet w H); clear H
           end.
    reflexivity.
  - repeat step. step_log. repeat step. step_log. repeat step.
    step_poll Hfuel. repeat step. cbv beta.
    match goal with
    | |- context [log_busy_state ?st] =>
        destruct (log_busy_state_quiet st) as (c6 & r6 & w6 & -> & Hq6 & Hc6 & Hb6)
    end.
    project_in Hc6. cbn [prepend].
    apply HP; [repeat split | | cbn; lia].
    rewrite !loud_app.
    repeat match goal with
           | H : forallb quiet ?w = true |- _ => rewrite (loud_quiet w H); clear H
           end.
    reflexivity.
Qed.

Lemma captured_init_loud_events reset :
  commands (wire false (init_loud_events reset)) = configuration_sequence.
Proof. destruct reset; reflexivity. Qed.

Lemma init_display__runs fuel d :
  (enough_fuel <= fuel)%nat ->
  exists d' tr,
    init_display_ fuel d = Done tt d' tr
    /\ same_driver d d'
    /\ loud tr = init_loud_events (reset_pin_ d)
    /\ clock d <= clock d'.
Proof.
  intros Hfuel. apply init_display__cases; [assumption |].
  intros d' tr Hs Hl Hc. exists d', tr. auto.
Qed.

(** ** [setup] *)

Lemma memset_whole v n d :
  length (buffer_ d) = Z.to_nat n ->
  memset v n d = Done tt (set_buffer_ (replicate (Z.to_nat n) (u8 v)) d) [].
Proof.
  intros Hlen. unfold memset. rewrite <- Hlen, Nat.leb_refl, drop_all, app_nil_r.
  reflexivity.
Qed.

Lemma bind_busy_pin_present {B} (k : bool -> M B) d :
  bind busy_pin_present k d
  = k (match busy_pin_ d with Some _ => true | None => false end) d.
Proof.
  destruct (busy_pin_ d) as [line |] eqn:Hline.
  - rewrite (bind_done _ _ _ _ _ _ (busy_pin_present_some d line Hline)).
    destruct (k true d); reflexivity.
  - rewrite (bind_done _ _ _ _ _ _ (busy_pin_present_none d Hline)).
    destruct (k false d); reflexivity.
Qed.

Lemma setup_runs d : setup d = Done tt (after_setup d) (setup_events d).
Proof.
  unfold setup, reset_pin_present, init_internal_, after_setup, setup_events,
    dc_pin_digital_write.
  do 6 step. project.
  destruct (reset_pin_ d) eqn:Hreset; repeat step; rewrite bind_busy_pin_present; project;
    destruct (busy_pin_ d) as [line |] eqn:Hline; repeat step; cbv beta;
    match goal with
    | |- context [bind (memset ?v ?n) ?k ?st] =>
        rewrite (bind_done _ k st _ _ _ (memset_whole v n st (length_replicate _ _)))
    end;
    reflexivity.
Qed.

(** ** Rendering *)

Lemma draw_total x y color (buf : list Z) :
  length buf = Z.to_nat ALLSCREEN_BYTES ->
  exists buf', draw_absolute_pixel_internal x y color buf = Some buf'
               /\ length buf' = Z.to_nat ALLSCREEN_BYTES.
Proof.
  intros Hlen.
  destruct (pixel_target x y) as [[pos bit] |] eqn:Ht.
  - pose proof (pixel_target_checked x y pos bit Ht) as Hin.
    destruct (draw_in_bounds x y color buf Hin Hlen) as (b & _ & Hd).
    eexists. split; [exact Hd |]. rewrite length_insert. exact Hlen.
  - exists buf. unfold draw_absolute_pixel_internal. rewrite Ht. auto.
Qed.

Lemma render_total draws : forall buf : list Z,
  length buf = Z.to_nat ALLSCREEN_BYTES ->
  exists buf', render draws buf = Some buf' /\ length buf' = Z.to_nat ALLSCREEN_BYTES.
Proof.
  induction draws as [| [[x y] color] draws IH]; intros buf Hlen; [eauto |].
  cbn [render].
  destruct (draw_total x y color buf Hlen) as (buf1 & -> & Hlen1). auto.
Qed.

Lemma do_update__render draws : forall d buf',
  render draws (buffer_ d) = Some buf' ->
  do_update_ draws d = Done tt (set_buffer_ buf' d) [].
Proof.
  induction draws as [| [[x y] color] draws IH]; intros d buf' Hr.
  - cbn in Hr. injection Hr as <-. destruct d; reflexivity.
  - cbn [render] in Hr. cbn [do_update_].
    destruct (draw_absolute_pixel_internal x y color (buffer_ d)) as [buf1 |] eqn:Hd;
      [| discriminate].
    unfold bind at 1, draw_pixel at 1. rewrite Hd.
    rewrite (IH (set_buffer_ buf1 d) buf' Hr). reflexivity.
Qed.

(** ** [update] *)

Lemma update_configured fuel draws d :
  initialized_ d = true ->
  update fuel draws d = (do_update_ draws ;; display_frame_ fuel) d.
Proof.
  intros Hinit. unfold update. rewrite bind_get_, Hinit. cbn [negb].
  rewrite bind_ret. reflexivity.
Qed.

(** One rendering pass followed by the write-and-refresh phase. *)
Lemma write_phase_runs fuel draws d :
  (enough_fuel <= fuel)%nat ->
  length (buffer_ d) = Z.to_nat ALLSCREEN_BYTES ->
  exists d' buf' tr,
    (do_update_ draws ;; display_frame_ fuel) d = Done tt d' tr
    /\ render draws (buffer_ d) = Some buf'
    /\ is_frame (reset_pin_ d) buf' tr
    /\ same_driver (set_buffer_ buf' d) d'
    /\ length buf' = Z.to_nat ALLSCREEN_BYTES
    /\ clock d <= clock d'.
Proof.
  intros Hfuel Hlen.
  destruct (render_total draws (buffer_ d) Hlen) as (buf' & Hr & Hlen').
  rewrite (bind_done _ _ _ _ _ _ (do_update__render draws d buf' Hr)).
  destruct (display_frame__runs fuel (set_buffer_ buf' d) Hfuel Hlen')
    as (d' & w1 & w2 & w3 & w4 & Hrun & Hs & H1 & H2 & H3 & H4 & Hc).
  rewrite Hrun. cbn [prepend app].
  exists d', buf', (frame_events (reset_pin_ d) w1 w2 w3 w4 buf').
  repeat split; try assumption; try apply Hs.
  exists w1, w2, w3, w4. auto.
Qed.

Lemma wire_is_frame_app reset buf tr dc rest :
  is_frame reset buf tr -> wire dc (tr ++ rest) = frame_wire buf ++ wire false rest.
Proof.
  intros (w1 & w2 & w3 & w4 & -> & H1 & H2 & H3 & H4).
  apply wire_frame_events_app; assumption.
Qed.

Lemma reset_writes_is_frame reset buf tr :
  is_frame reset buf tr -> reset_writes tr = if reset then [false; true] else [].
Proof.
  intros (w1 & w2 & w3 & w4 & -> & H1 & H2 & H3 & H4).
  apply reset_writes_frame_events; assumption.
Qed.

(** Updates of a configured driver: one write-and-refresh phase each. *)
Lemma updates_configured_runs fuel passes : forall d,
  (enough_fuel <= fuel)%nat ->
  initialized_ d = true ->
  length (buffer_ d) = Z.to_nat ALLSCREEN_BYTES ->
  exists d' tr bufs,
    updates fuel passes d = Done tt d' tr
    /\ write_phases fuel passes d = Done tt d' tr
    /\ initialized_ d' = true
    /\ reset_pin_ d' = reset_pin_ d /\ busy_pin_ d' = busy_pin_ d
    /\ length (buffer_ d') = Z.to_nat ALLSCREEN_BYTES
    /\ length bufs = length passes
    /\ (forall dc, wire dc tr = flat_map frame_wire bufs)
    /\ reset_writes tr
       = flat_map (fun _ => if reset_pin_ d then [false; true] else []) bufs.
Proof.
  induction passes as [| draws passes IH]; intros d Hfuel Hinit Hlen.
  - exists d, [], []. cbn. auto 10.
  - cbn [updates write_phases].
    destruct (write_phase_runs fuel draws d Hfuel Hlen)
      as (d1 & buf1 & tr1 & Hrun & _ & Hframe & Hs & Hlen1 & _).
    destruct Hs as (Hs1 & Hs2 & Hs3 & Hs4). cbn in Hs1, Hs2, Hs3, Hs4.
    destruct (IH d1 Hfuel ltac:(congruence) ltac:(congruence))
      as (d' & tr & bufs & Hrun' & Hphases & Hinit' & Hr' & Hb' & Hlen' & Hn & Hwire & Hreset).
    exists d', (tr1 ++ tr), (buf1 :: bufs).
    split.
    { unfold bind at 1. rewrite update_configured by assumption.
      rewrite Hrun. cbn [prepend]. rewrite Hrun'. reflexivity. }
    split.
    { rewrite <- bind_assoc. unfold bind at 1. rewrite Hrun. cbn [prepend].
      rewrite Hphases. reflexivity. }
    repeat split; try congruence.
    + cbn. congruence.
    + intros dc. rewrite (wire_is_frame_app _ _ _ _ _ Hframe), Hwire. reflexivity.
    + rewrite reset_writes_app, (reset_writes_is_frame _ _ _ Hframe), Hreset, Hs1.
      reflexivity.
Qed.

(** The first update of a driver with a busy line. *)
Lemma update_first_runs fuel draws d line :
  (enough_fuel <= fuel)%nat ->
  initialized_ d = false ->
  busy_pin_ d = Some line ->
  length (buffer_ d) = Z.to_nat ALLSCREEN_BYTES ->
  exists d' buf' tr_init tr_frame,
    update fuel draws d
    = Done tt d' (PinRead BUSY (line (busy_reads d)) :: probe_events ++ tr_init ++ tr_frame)
    /\ loud tr_init = init_loud_events (reset_pin_ d)
    /\ is_frame (reset_pin_ d) buf' tr_frame
    /\ render draws (buffer_ d) = Some buf'
    /\ initialized_ d' = true
    /\ reset_pin_ d' = reset_pin_ d /\ busy_pin_ d' = busy_pin_ d
    /\ buffer_ d' = buf'
    /\ length buf' = Z.to_nat ALLSCREEN_BYTES.
Proof.
  intros Hfuel Hinit Hline Hlen. unfold update.
  rewrite bind_get_, Hinit. cbn [negb].
  rewrite !bind_assoc. unfold bind at 1, busy_pin_digital_read at 1. rewrite Hline. cbv zeta.
  repeat step.
  match goal with
  | |- context [bind (init_display_ fuel) ?k ?st] =>
      destruct (init_display__runs fuel st Hfuel) as (d1 & tr_init & Hrun & Hs & Hloud & _);
      rewrite (bind_done _ k st _ _ _ Hrun)
  end.
  destruct Hs as (Hs1 & Hs2 & Hs3 & Hs4). cbn in Hs1, Hs2, Hs3, Hs4, Hloud.
  repeat step. cbv beta.
  destruct (write_phase_runs fuel draws (set_initialized_ true d1) Hfuel)
    as (d' & buf' & tr_frame & Hrun' & Hr & Hframe & Hs' & Hlen' & _);
    [cbn; congruence |].
  destruct Hs' as (Hs1' & Hs2' & Hs3' & Hs4'). cbn in Hs1', Hs2', Hs3', Hs4', Hr, Hframe.
  rewrite Hrun'. cbn [prepend app].
  exists d', buf', tr_init, tr_frame.
  rewrite Hs1 in Hframe. rewrite Hs4 in Hr.
  repeat split; try assumption; try congruence.
Qed.

(** * The claims *)

(** ** Frame buffer *)

Lemma read_pixel_insert x y v (buf : list Z) :
  (Z.to_nat (byte_index x y) < length buf)%nat ->
  read_pixel x y (<[Z.to_nat (byte_index x y) := v]> buf)
  = Some (Z.testbit v (bit_of_column x)).
Proof.
  intros Hlt. unfold read_pixel. rewrite list_lookup_insert_eq by assumption.
  rewrite bitmask_pow2, land_pow2_testbit by apply bit_of_column_range. reflexivity.
Qed.

(** C4. For every in-range coordinate pair, a pixel write sets or clears
    the bit of byte [y * (width / 8) + x / 8] selected by the mask
    [0x80 >> (x mod 8)], and reading the pixel back through the same
    formula returns the value written.  Pixel (0,0) is bit 0x80 of byte 0,
    pixel (7,0) is bit 0x01 of byte 0 and pixel (8,0) is bit 0x80 of
    byte 1. *)
Theorem draw_pixel_addressing x y color (buf : list Z) :
  in_bounds x y ->
  length buf = Z.to_nat ALLSCREEN_BYTES ->
  (exists b buf',
      buf !! Z.to_nat (byte_index x y) = Some b
      /\ draw_absolute_pixel_internal x y color buf = Some buf'
      /\ buf' = <[Z.to_nat (byte_index x y) :=
                    if is_on color then u8 (Z.lor b (bitmask x))
                    else u8 (Z.land b (Z.lnot (bitmask x)))]> buf
      /\ read_pixel x y buf' = Some (is_on color))
  /\ (byte_index 0 0, bitmask 0) = (0, 0x80)
  /\ (byte_index 7 0, bitmask 7) = (0, 0x01)
  /\ (byte_index 8 0, bitmask 8) = (1, 0x80)
  /\ draw_absolute_pixel_internal 0 0 COLOR_ON (replicate 4736 0x00)
     = Some (<[0%nat := 0x80]> (replicate 4736 0x00))
  /\ draw_absolute_pixel_internal 7 0 COLOR_ON (replicate 4736 0x00)
     = Some (<[0%nat := 0x01]> (replicate 4736 0x00))
  /\ draw_absolute_pixel_internal 8 0 COLOR_ON (replicate 4736 0x00)
     = Some (<[1%nat := 0x80]> (replicate 4736 0x00)).
Proof.
  intros Hin Hlen. split.
  - destruct (draw_in_bounds x y color buf Hin Hlen) as (b & Hb & Hd).
    pose proof (byte_index_range x y Hin) as Hr.
    eexists b, _. split; [exact Hb |]. split; [exact Hd |]. split; [reflexivity |].
    rewrite read_pixel_insert by lia. f_equal. apply written_bit.
  - repeat split; vm_compute; reflexivity.
Qed.

Lemma draw_pixel_addressing_witness :
  in_bounds 127 295
  /\ length fresh = Z.to_nat ALLSCREEN_BYTES
  /\ exists b buf',
      fresh !! Z.to_nat (byte_index 127 295) = Some b
      /\ draw_absolute_pixel_internal 127 295 COLOR_OFF fresh = Some buf'
      /\ buf' = <[Z.to_nat (byte_index 127 295) :=
                    if is_on COLOR_OFF then u8 (Z.lor b (bitmask 127))
                    else u8 (Z.land b (Z.lnot (bitmask 127)))]> fresh
      /\ read_pixel 127 295 buf' = Some (is_on COLOR_OFF).
Proof.
  assert (in_bounds 127 295) as Hin by (unfold in_bounds, WIDTH, HEIGHT; lia).
  assert (length fresh = Z.to_nat ALLSCREEN_BYTES) as Hlen by (vm_compute; reflexivity).
  split; [exact Hin |]. split; [exact Hlen |].
  exact (proj1 (draw_pixel_addressing 127 295 COLOR_OFF fresh Hin Hlen)).
Defined.

(** C5. Out-of-range coordinates leave every byte of the buffer as it was
    and raise nothing; in-range coordinates write one bit and change no
    other bit of the buffer. *)
Theorem draw_pixel_touches_one_bit x y color (buf : list Z) :
  length buf = Z.to_nat ALLSCREEN_BYTES ->
  (x < 0 \/ x >= WIDTH \/ y < 0 \/ y >= HEIGHT ->
   draw_absolute_pixel_internal x y color buf = Some buf)
  /\ (in_bounds x y ->
      exists buf',
        draw_absolute_pixel_internal x y color buf = Some buf'
        /\ length buf' = length buf
        /\ (forall i, i <> Z.to_nat (byte_index x y) -> buf' !! i = buf !! i)
        /\ exists b b',
            buf !! Z.to_nat (byte_index x y) = Some b
            /\ buf' !! Z.to_nat (byte_index x y) = Some b'
            /\ Z.testbit b' (bit_of_column x) = is_on color
            /\ forall k, 0 <= k < 8 -> k <> bit_of_column x ->
                         Z.testbit b' k = Z.testbit b k).
Proof.
  intros Hlen. split.
  - intros Hout. unfold draw_absolute_pixel_internal.
    rewrite pixel_target_out_of_bounds by assumption. reflexivity.
  - intros Hin. destruct (draw_in_bounds x y color buf Hin Hlen) as (b & Hb & Hd).
    pose proof (byte_index_range x y Hin) as Hr.
    eexists. split; [exact Hd |]. split; [apply length_insert |]. split.
    + intros i Hi. apply list_lookup_insert_ne. congruence.
    + exists b. eexists. split; [exact Hb |].
      split; [apply list_lookup_insert_eq; lia |].
      split; [apply written_bit |]. intros k Hk Hne. apply other_bits; assumption.
Qed.

Lemma draw_pixel_touches_one_bit_witness :
  length fresh = Z.to_nat ALLSCREEN_BYTES
  /\ draw_absolute_pixel_internal (-1) 296 COLOR_ON fresh = Some fresh
  /\ exists buf',
      draw_absolute_pixel_internal 9 2 COLOR_OFF fresh = Some buf'
      /\ length buf' = length fresh
      /\ (forall i, i <> Z.to_nat (byte_index 9 2) -> buf' !! i = fresh !! i)
      /\ exists b b',
          fresh !! Z.to_nat (byte_index 9 2) = Some b
          /\ buf' !! Z.to_nat (byte_index 9 2) = Some b'
          /\ Z.testbit b' (bit_of_column 9) = is_on COLOR_OFF
          /\ forall k, 0 <= k < 8 -> k <> bit_of_column 9 ->
                       Z.testbit b' k = Z.testbit b k.
Proof.
  assert (length fresh = Z.to_nat ALLSCREEN_BYTES) as Hlen by (vm_compute; reflexivity).
  split; [exact Hlen |]. split.
  - apply (proj1 (draw_pixel_touches_one_bit (-1) 296 COLOR_ON fresh Hlen)). lia.
  - apply (proj2 (draw_pixel_touches_one_bit 9 2 COLOR_OFF fresh Hlen)).
    unfold in_bounds, WIDTH, HEIGHT. lia.
Defined.

(** C10. For all integer coordinates, negative ones included, a pixel
    write either returns without touching the buffer or writes the single
    byte whose computed index is below the buffer length; it never
    accesses the buffer out of bounds.  The coordinate check and the index
    guard each bound the index. *)
Theorem draw_pixel_stays_in_bounds x y color (buf : list Z) :
  length buf = Z.to_nat ALLSCREEN_BYTES ->
  draw_absolute_pixel_internal x y color buf <> None
  /\ ((pixel_target x y = None /\ draw_absolute_pixel_internal x y color buf = Some buf)
      \/ (exists pos bit b,
             pixel_target x y = Some (pos, bit)
             /\ 0 <= pos < ALLSCREEN_BYTES
             /\ (Z.to_nat pos < length buf)%nat
             /\ in_bounds x y
             /\ buf !! Z.to_nat pos = Some b
             /\ draw_absolute_pixel_internal x y color buf
                = Some (<[Z.to_nat pos := if is_on color then set_bits bit b
                                          else clear_bits bit b]> buf))).
Proof.
  intros Hlen.
  destruct (pixel_target x y) as [[pos bit] |] eqn:Ht.
  - pose proof (pixel_target_guard x y pos bit Ht) as Hguard.
    pose proof (pixel_target_checked x y pos bit Ht) as Hin.
    assert (Z.to_nat pos < length buf)%nat as Hlt by lia.
    destruct (lookup_lt_is_Some_2 buf (Z.to_nat pos) Hlt) as [b Hb].
    assert (draw_absolute_pixel_internal x y color buf
            = Some (<[Z.to_nat pos := if is_on color then set_bits bit b
                                      else clear_bits bit b]> buf)) as Hd.
    { unfold draw_absolute_pixel_internal, update_byte. rewrite Ht, Hb.
      destruct (is_on color); reflexivity. }
    split; [rewrite Hd; discriminate |].
    right. exists pos, bit, b. auto 10.
  - assert (draw_absolute_pixel_internal x y color buf = Some buf) as Hd
      by (unfold draw_absolute_pixel_internal; rewrite Ht; reflexivity).
    split; [rewrite Hd; discriminate |]. left. auto.
Qed.

Lemma draw_pixel_stays_in_bounds_witness :
  length fresh = Z.to_nat ALLSCREEN_BYTES
  /\ draw_absolute_pixel_internal (-5) 300 COLOR_ON fresh <> None
  /\ draw_absolute_pixel_internal 127 295 COLOR_ON fresh <> None.
Proof.
  assert (length fresh = Z.to_nat ALLSCREEN_BYTES) as Hlen by (vm_compute; reflexivity).
  split; [exact Hlen |]. split.
  - exact (proj1 (draw_pixel_stays_in_bounds (-5) 300 COLOR_ON fresh Hlen)).
  - exact (proj1 (draw_pixel_stays_in_bounds 127 295 COLOR_ON fresh Hlen)).
Defined.

(** ** Busy handshake *)

(** C6. [wait_until_idle_] returns for every behaviour of the busy line.
    Without a busy line it sleeps once, for 100 ms.  With a busy line that
    never reads idle it polls every 10 ms, leaves once more than 10000 ms
    have elapsed, and returns normally. *)
Theorem wait_until_idle__always_returns fuel d :
  (enough_fuel <= fuel)%nat ->
  (exists d' tr,
      wait_until_idle_ fuel d = Done tt d' tr
      /\ same_driver d d'
      /\ clock d' = clock d + slept tr
      /\ 0 <= slept tr <= 10020)
  /\ (busy_pin_ d = None ->
      wait_until_idle_ fuel d = Done tt (set_clock (clock d + 100) d) [Delay 100])
  /\ (forall line,
         busy_pin_ d = Some line -> (forall k, line k = true) ->
         exists d',
           wait_until_idle_ fuel d
           = Done tt d' (PinRead BUSY true
                           :: concat (replicate 1001 stuck_poll) ++ [PinRead BUSY true])
           /\ same_driver d d'
           /\ clock d' = clock d + 10010).
Proof.
  intros Hfuel. split; [| split].
  - destruct (wait_until_idle__terminates fuel d Hfuel) as (d' & tr & Hrun & Hs & _ & Hc & Hb).
    exists d', tr. auto.
  - apply wait_until_idle__no_busy_pin.
  - intros line Hline Hstuck. apply (wait_until_idle__stuck fuel d line); assumption.
Qed.

Lemma wait_until_idle__always_returns_witness :
  (enough_fuel <= enough_fuel)%nat
  /\ exists d' tr,
      wait_until_idle_ enough_fuel (power_on true (Some (fun _ => true)) 4294967000)
      = Done tt d' tr
      /\ same_driver (power_on true (Some (fun _ => true)) 4294967000) d'
      /\ clock d' = clock (power_on true (Some (fun _ => true)) 4294967000) + slept tr
      /\ 0 <= slept tr <= 10020.
Proof.
  split; [lia |].
  apply (proj1 (wait_until_idle__always_returns enough_fuel
                  (power_on true (Some (fun _ => true)) 4294967000) (le_n _))).
Defined.

(** ** The write-and-refresh phase *)

Lemma inverted_testbit b k : 0 <= k < 8 -> Z.testbit (inverted b) k = negb (Z.testbit b k).
Proof.
  intros Hk. unfold inverted. rewrite u8_testbit, Z.lnot_spec by lia. reflexivity.
Qed.

Lemma lookup_map_inverted (buf : list Z) i b :
  buf !! i = Some b -> map inverted buf !! i = Some (inverted b).
Proof.
  revert i. induction buf as [| b0 buf IH]; intros [| i] H; try discriminate.
  - injection H as ->. reflexivity.
  - cbn in *. auto.
Qed.

(** C1. The write phase of an update sends "write primary RAM" (0x24)
    followed by exactly 4736 data bytes, the i-th being the 8-bit
    complement of the i-th frame-buffer byte, and later "write secondary
    RAM" (0x26) followed by exactly 4736 bytes 0x00; the RAM counters are
    set back between the two. *)
Theorem display_frame__writes_both_planes fuel d :
  (enough_fuel <= fuel)%nat ->
  length (buffer_ d) = Z.to_nat ALLSCREEN_BYTES ->
  exists d' tr,
    display_frame_ fuel d = Done tt d' tr
    /\ buffer_ d' = buffer_ d
    /\ captured tr
       = [ (0x12, []);
           (0x01, [0x27; 0x01; 0x00]);
           (0x11, [0x03]);
           (0x44, [0x00; 0x0F]);
           (0x45, [0x00; 0x00; 0x27; 0x01]);
           (0x4E, [0x00]);
           (0x4F, [0x00; 0x00]);
           (0x24, map inverted (buffer_ d));
           (0x4E, [0x00]);
           (0x4F, [0x00; 0x00]);
           (0x26, replicate 4736 0x00);
           (0x22, [0xF7]);
           (0x20, []) ]
    /\ length (map inverted (buffer_ d)) = 4736%nat
    /\ (WIDTH * HEIGHT) / 8 = 4736
    /\ (forall i b, buffer_ d !! i = Some b ->
                    map inverted (buffer_ d) !! i = Some (inverted b))
    /\ (forall b k, 0 <= k < 8 -> Z.testbit (inverted b) k = negb (Z.testbit b k)).
Proof.
  intros Hfuel Hlen.
  destruct (display_frame__runs fuel d Hfuel Hlen)
    as (d' & w1 & w2 & w3 & w4 & Hrun & Hs & H1 & H2 & H3 & H4 & _).
  exists d', (frame_events (reset_pin_ d) w1 w2 w3 w4 (buffer_ d)).
  split; [exact Hrun |]. split; [apply Hs |].
  split; [rewrite captured_frame_events by assumption; reflexivity |].
  split; [rewrite length_map, Hlen; reflexivity |].
  split; [reflexivity |].
  split; [apply lookup_map_inverted | apply inverted_testbit].
Qed.

Lemma display_frame__writes_both_planes_witness :
  (enough_fuel <= enough_fuel)%nat
  /\ length (buffer_ (after_setup full_board)) = Z.to_nat ALLSCREEN_BYTES
  /\ exists d' tr,
      display_frame_ enough_fuel (after_setup full_board) = Done tt d' tr
      /\ buffer_ d' = buffer_ (after_setup full_board)
      /\ In (0x24, map inverted (buffer_ (after_setup full_board))) (captured tr)
      /\ In (0x26, replicate 4736 0x00) (captured tr).
Proof.
  assert (length (buffer_ (after_setup full_board)) = Z.to_nat ALLSCREEN_BYTES) as Hlen
    by (vm_compute; reflexivity).
  split; [lia |]. split; [exact Hlen |].
  destruct (display_frame__writes_both_planes enough_fuel (after_setup full_board)
              (le_n _) Hlen) as (d' & tr & Hrun & Hbuf & Hcap & _).
  exists d', tr. split; [exact Hrun |]. split; [exact Hbuf |].
  rewrite Hcap. split.
  - do 7 right. left. reflexivity.
  - do 10 right. left. reflexivity.
Defined.

Lemma display_frame__transactions fuel d :
  (enough_fuel <= fuel)%nat ->
  length (buffer_ d) = Z.to_nat ALLSCREEN_BYTES ->
  exists d' tr,
    display_frame_ fuel d = Done tt d' tr
    /\ transactions false None tr
       = map (fun t => (fst t, [snd t])) (frame_wire (buffer_ d)).
Proof.
  intros Hfuel Hlen.
  destruct (display_frame__runs fuel d Hfuel Hlen)
    as (d' & w1 & w2 & w3 & w4 & Hrun & Hs & H1 & H2 & H3 & H4 & _).
  eexists d', _. split; [exact Hrun |].
  apply transactions_frame_events; assumption.
Qed.

(** C9, as the code has it.  The primary bit-plane is streamed as 4736
    scoped bus transactions, one [enable()]/[disable()] pair around each
    inverted byte; every transaction of the write phase carries exactly
    one byte. *)
Theorem display_frame__one_transaction_per_byte fuel d :
  (enough_fuel <= fuel)%nat ->
  length (buffer_ d) = Z.to_nat ALLSCREEN_BYTES ->
  exists d' tr before after,
    display_frame_ fuel d = Done tt d' tr
    /\ transactions false None tr
       = before
         ++ (false, [0x24]) :: map (fun b => (true, [inverted b])) (buffer_ d)
         ++ (false, [0x4E]) :: after
    /\ length (map (fun b => (true, [inverted b])) (buffer_ d)) = 4736%nat
    /\ Forall (fun t => length (snd t) = 1%nat) (transactions false None tr).
Proof.
  intros Hfuel Hlen.
  destruct (display_frame__transactions fuel d Hfuel Hlen) as (d' & tr & Hrun & Htx).
  exists d', tr.
  exists (map (fun t => (fst t, [snd t]))
            [ (false, 0x12);
              (false, 0x01); (true, 0x27); (true, 0x01); (true, 0x00);
              (false, 0x11); (true, 0x03);
              (false, 0x44); (true, 0x00); (true, 0x0F);
              (false, 0x45); (true, 0x00); (true, 0x00); (true, 0x27); (true, 0x01);
              (false, 0x4E); (true, 0x00);
              (false, 0x4F); (true, 0x00); (true, 0x00) ]).
  eexists. split; [exact Hrun |]. rewrite Htx. split; [| split].
  - unfold frame_wire.
    repeat (cbn [map app fst snd]; rewrite ?map_app, ?map_map).
    reflexivity.
  - rewrite length_map, Hlen. reflexivity.
  - apply List.Forall_forall. intros t Ht.
    apply in_map_iff in Ht as (t0 & <- & _). reflexivity.
Qed.

Lemma display_frame__one_transaction_per_byte_witness :
  (enough_fuel <= enough_fuel)%nat
  /\ length (buffer_ (after_setup full_board)) = Z.to_nat ALLSCREEN_BYTES
  /\ exists d' tr,
      display_frame_ enough_fuel (after_setup full_board) = Done tt d' tr
      /\ Forall (fun t => length (snd t) = 1%nat) (transactions false None tr).
Proof.
  assert (length (buffer_ (after_setup full_board)) = Z.to_nat ALLSCREEN_BYTES) as Hlen
    by (vm_compute; reflexivity).
  split; [lia |]. split; [exact Hlen |].
  destruct (display_frame__one_transaction_per_byte enough_fuel (after_setup full_board)
              (le_n _) Hlen) as (d' & tr & before & after & Hrun & _ & _ & Hall).
  exists d', tr. split; [exact Hrun | exact Hall].
Defined.

(** C9 fails as stated: after [setup()] on a board with all pins, no
    scoped transaction of the write phase carries the primary plane; the
    4736 inverted bytes are not sent inside one [enable()]/[disable()]
    pair. *)
Lemma primary_plane_is_not_one_transaction :
  exists d' tr,
    display_frame_ enough_fuel (after_setup full_board) = Done tt d' tr
    /\ ~ In (true, map inverted (buffer_ (after_setup full_board)))
            (transactions false None tr).
Proof.
  assert (length (buffer_ (after_setup full_board)) = Z.to_nat ALLSCREEN_BYTES) as Hlen
    by (vm_compute; reflexivity).
  destruct (display_frame__transactions enough_fuel (after_setup full_board) (le_n _) Hlen)
    as (d' & tr & Hrun & Htx).
  exists d', tr. split; [exact Hrun |].
  rewrite Htx. intros Hin. apply in_map_iff in Hin as (t & Ht & _).
  apply (f_equal (fun p => length (snd p))) in Ht. cbn [snd length] in Ht.
  rewrite length_map, Hlen in Ht. vm_compute in Ht. discriminate Ht.
Qed.

(** ** The reset line *)

Lemma display_frame__reset_pulse fuel d :
  (enough_fuel <= fuel)%nat ->
  length (buffer_ d) = Z.to_nat ALLSCREEN_BYTES ->
  reset_pin_ d = true ->
  exists d' rest,
    display_frame_ fuel d = Done tt d' (reset_pulse_events ++ rest)
    /\ reset_writes rest = [].
Proof.
  intros Hfuel Hlen Hreset.
  destruct (display_frame__runs fuel d Hfuel Hlen)
    as (d' & w1 & w2 & w3 & w4 & Hrun & Hs & H1 & H2 & H3 & H4 & _).
  rewrite Hreset in Hrun. unfold frame_events in Hrun.
  eexists d', _. split; [exact Hrun |].
  pose proof (reset_writes_frame_events false w1 w2 w3 w4 (buffer_ d) H1 H2 H3 H4) as Hw.
  exact Hw.
Qed.

(** C7, as the code has it.  With a reset line configured, the write
    phase starts by driving the line low and then high: exactly two
    writes, each followed by a 10 ms sleep.  The last write to the line
    before that, by [setup()] or by the one-time configuration, left it
    high, and the phase leaves it high for the next one. *)
Theorem display_frame__pulses_reset_low_high fuel d :
  (enough_fuel <= fuel)%nat ->
  length (buffer_ d) = Z.to_nat ALLSCREEN_BYTES ->
  reset_pin_ d = true ->
  (exists d' rest,
      display_frame_ fuel d
      = Done tt d' ([PinWrite RESET false; Delay 10; PinWrite RESET true; Delay 10] ++ rest)
      /\ reset_writes rest = [])
  /\ reset_writes (trace_of (setup d)) = [true]
  /\ (exists d' tr,
         init_display_ fuel d = Done tt d' tr /\ reset_writes tr = [true; false; true]).
Proof.
  intros Hfuel Hlen Hreset. split; [| split].
  - apply display_frame__reset_pulse; assumption.
  - rewrite setup_runs. unfold trace_of, setup_events. rewrite Hreset.
    destruct (busy_pin_ d); reflexivity.
  - destruct (init_display__runs fuel d Hfuel) as (d' & tr & Hrun & _ & Hloud & _).
    exists d', tr. split; [exact Hrun |].
    rewrite <- reset_writes_loud, Hloud, Hreset. reflexivity.
Qed.

Lemma display_frame__pulses_reset_low_high_witness :
  (enough_fuel <= enough_fuel)%nat
  /\ length (buffer_ (after_setup full_board)) = Z.to_nat ALLSCREEN_BYTES
  /\ reset_pin_ (after_setup full_board) = true
  /\ exists d' rest,
      display_frame_ enough_fuel (after_setup full_board)
      = Done tt d' ([PinWrite RESET false; Delay 10; PinWrite RESET true; Delay 10] ++ rest)
      /\ reset_writes rest = [].
Proof.
  assert (length (buffer_ (after_setup full_board)) = Z.to_nat ALLSCREEN_BYTES) as Hlen
    by (vm_compute; reflexivity).
  split; [lia |]. split; [exact Hlen |]. split; [reflexivity |].
  exact (proj1 (display_frame__pulses_reset_low_high enough_fuel (after_setup full_board)
                  (le_n _) Hlen eq_refl)).
Defined.

(** C7 fails as stated: after [setup()] on a board with all pins, the
    write phase writes the reset line twice, low then high, not three
    times high, low, high. *)
Lemma reset_pulse_is_two_writes :
  exists d' tr,
    display_frame_ enough_fuel (after_setup full_board) = Done tt d' tr
    /\ reset_writes tr = [false; true]
    /\ reset_writes tr <> [true; false; true].
Proof.
  assert (length (buffer_ (after_setup full_board)) = Z.to_nat ALLSCREEN_BYTES) as Hlen
    by (vm_compute; reflexivity).
  destruct (display_frame__reset_pulse enough_fuel (after_setup full_board)
              (le_n _) Hlen eq_refl) as (d' & rest & Hrun & Hrest).
  eexists d', _. split; [exact Hrun |].
  rewrite reset_writes_app, Hrest. split; [reflexivity | discriminate].
Qed.

(** ** The buffer after [setup] *)

(** C8, as the code has it.  After [setup()] the frame buffer has exactly
    (width * height) / 8 = 4736 bytes and every byte is 0xFF, all bits
    set; pixel writes and updates never change its length. *)
Theorem setup_fills_buffer d :
  (exists d' tr,
      setup d = Done tt d' tr
      /\ initialized_ d' = false
      /\ length (buffer_ d') = 4736%nat
      /\ Z.of_nat (length (buffer_ d')) = (WIDTH * HEIGHT) / 8
      /\ buffer_ d' = replicate 4736 0xFF
      /\ (forall i b, buffer_ d' !! i = Some b ->
                      b = 0xFF /\ forall k, 0 <= k < 8 -> Z.testbit b k = true))
  /\ (forall x y color (buf : list Z),
         length buf = Z.to_nat ALLSCREEN_BYTES ->
         exists buf', draw_absolute_pixel_internal x y color buf = Some buf'
                      /\ length buf' = length buf)
  /\ (forall fuel draws d0,
         (enough_fuel <= fuel)%nat ->
         length (buffer_ d0) = Z.to_nat ALLSCREEN_BYTES ->
         initialized_ d0 = true \/ is_Some (busy_pin_ d0) ->
         exists d' tr, update fuel draws d0 = Done tt d' tr
                       /\ length (buffer_ d') = length (buffer_ d0)).
Proof.
  split; [| split].
  - exists (after_setup d), (setup_events d). split; [apply setup_runs |].
    split; [reflexivity |].
    split; [vm_compute; reflexivity |].
    split; [vm_compute; reflexivity |].
    split; [vm_compute; reflexivity |].
    intros i b Hb. cbn in Hb. unfold fresh in Hb.
    apply lookup_replicate in Hb as [-> _]. split; [reflexivity |].
    intros k Hk.
    assert (k = 0 \/ k = 1 \/ k = 2 \/ k = 3 \/ k = 4 \/ k = 5 \/ k = 6 \/ k = 7) as Hc by lia.
    repeat (destruct Hc as [-> | Hc]; [reflexivity |]). subst k. reflexivity.
  - intros x y color buf Hlen.
    destruct (draw_total x y color buf Hlen) as (buf' & Hd & Hlen').
    exists buf'. split; [exact Hd | congruence].
  - intros fuel draws d0 Hfuel Hlen [Hinit | [line Hline]].
    + destruct (write_phase_runs fuel draws d0 Hfuel Hlen)
        as (d' & buf' & tr & Hrun & _ & _ & Hs & Hlen' & _).
      exists d', tr. rewrite update_configured by assumption.
      split; [exact Hrun |]. destruct Hs as (_ & _ & _ & ->). cbn. congruence.
    + destruct (initialized_ d0) eqn:Hinit.
      * destruct (write_phase_runs fuel draws d0 Hfuel Hlen)
          as (d' & buf' & tr & Hrun & _ & _ & Hs & Hlen' & _).
        exists d', tr. rewrite update_configured by assumption.
        split; [exact Hrun |]. destruct Hs as (_ & _ & _ & ->). cbn. congruence.
      * destruct (update_first_runs fuel draws d0 line Hfuel Hinit Hline Hlen)
          as (d' & buf' & ti & tf & Hrun & _ & _ & _ & _ & _ & _ & Hbuf & Hlen').
        eexists d', _. split; [exact Hrun |]. congruence.
Qed.

(** C8 fails as stated: after [setup()] the bytes of the buffer are 0xFF;
    pixel (0,0) reads as set, and so does every bit of byte 0. *)
Lemma fresh_buffer_is_not_clear :
  exists d' tr,
    setup full_board = Done tt d' tr
    /\ buffer_ d' !! 0%nat = Some 0xFF
    /\ read_pixel 0 0 (buffer_ d') = Some true
    /\ ~ (forall i b k, buffer_ d' !! i = Some b -> 0 <= k < 8 -> Z.testbit b k = false).
Proof.
  exists (after_setup full_board), (setup_events full_board).
  split; [apply setup_runs |].
  split; [vm_compute; reflexivity |].
  split; [vm_compute; reflexivity |].
  intros H. specialize (H 0%nat 0xFF 7 ltac:(vm_compute; reflexivity) ltac:(lia)).
  discriminate H.
Qed.

Lemma setup_fills_buffer_witness :
  exists d' tr,
    update enough_fuel [(0, 0, COLOR_ON)] (after_setup full_board) = Done tt d' tr
    /\ length (buffer_ d') = length (buffer_ (after_setup full_board)).
Proof.
  apply (proj2 (proj2 (setup_fills_buffer full_board)) enough_fuel [(0, 0, COLOR_ON)]
           (after_setup full_board) (le_n _)).
  - vm_compute. reflexivity.
  - right. eexists. reflexivity.
Defined.

(** ** The one-time configuration and the updates after it *)

Lemma frame_sequence_opcodes buf :
  Forall (fun c => fst c <> 0x3C /\ fst c <> 0x18) (frame_sequence buf).
Proof. unfold frame_sequence. repeat constructor; cbn; discriminate. Qed.

Lemma frame_sequences_opcodes bufs :
  Forall (fun c => fst c <> 0x3C /\ fst c <> 0x18) (flat_map frame_sequence bufs).
Proof.
  induction bufs as [| buf bufs IH]; [constructor |].
  cbn [flat_map]. apply Forall_app. split; [apply frame_sequence_opcodes | exact IH].
Qed.

(** The first update after [setup()], on a driver with a busy line. *)
Lemma update_first_wire fuel draws d line :
  (enough_fuel <= fuel)%nat ->
  initialized_ d = false ->
  busy_pin_ d = Some line ->
  length (buffer_ d) = Z.to_nat ALLSCREEN_BYTES ->
  exists d' tr buf',
    update fuel draws d = Done tt d' tr
    /\ initialized_ d' = true
    /\ reset_pin_ d' = reset_pin_ d /\ busy_pin_ d' = busy_pin_ d
    /\ render draws (buffer_ d) = Some buf'
    /\ buffer_ d' = buf'
    /\ length buf' = Z.to_nat ALLSCREEN_BYTES
    /\ (forall rest,
           wire false (tr ++ rest) = configuration_wire ++ frame_wire buf' ++ wire false rest)
    /\ reset_writes tr
       = (if reset_pin_ d then [true; false; true] else [])
         ++ (if reset_pin_ d then [false; true] else []).
Proof.
  intros Hfuel Hinit Hline Hlen.
  destruct (update_first_runs fuel draws d line Hfuel Hinit Hline Hlen)
    as (d' & buf' & ti & tf & Hrun & Hloud & Hframe & Hr & Hi & Hrp & Hbp & Hbuf & Hlen').
  eexists d', _, buf'. split; [exact Hrun |].
  repeat split; try assumption.
  - intros rest. cbn [app wire probe_events].
    rewrite <- app_assoc, <- wire_loud, loud_app, Hloud.
    rewrite wire_init_loud_events_app, wire_loud.
    rewrite (wire_is_frame_app _ _ _ _ _ Hframe). reflexivity.
  - cbn [reset_writes probe_events app].
    rewrite reset_writes_app, <- (reset_writes_loud ti), Hloud.
    rewrite (reset_writes_is_frame _ _ _ Hframe).
    destruct (reset_pin_ d); reflexivity.
Qed.

(** Any number of updates after [setup()], on a driver with a busy line:
    the configuration is sent once, then one write-and-refresh phase per
    update. *)
Lemma updates_after_setup fuel draws passes d line :
  (enough_fuel <= fuel)%nat ->
  busy_pin_ d = Some line ->
  exists d' tr bufs,
    updates fuel (draws :: passes) (after_setup d) = Done tt d' tr
    /\ initialized_ (after_setup d) = false
    /\ initialized_ d' = true
    /\ length bufs = S (length passes)
    /\ captured tr = configuration_sequence ++ flat_map frame_sequence bufs
    /\ reset_writes tr
       = (if reset_pin_ d then [true; false; true] else [])
         ++ flat_map (fun _ => if reset_pin_ d then [false; true] else []) bufs.
Proof.
  intros Hfuel Hline.
  destruct (update_first_wire fuel draws (after_setup d) line Hfuel eq_refl Hline)
    as (d1 & tr1 & buf1 & Hrun1 & Hi1 & Hrp1 & Hbp1 & _ & Hbuf1 & Hlen1 & Hwire1 & Hreset1);
    [vm_compute; reflexivity |].
  destruct (updates_configured_runs fuel passes d1 Hfuel Hi1 ltac:(congruence))
    as (d' & tr & bufs & Hrun & _ & Hi & _ & _ & _ & Hn & Hwire & Hreset).
  exists d', (tr1 ++ tr), (buf1 :: bufs).
  split; [cbn [updates]; unfold bind; rewrite Hrun1; cbn [prepend]; rewrite Hrun; reflexivity |].
  split; [reflexivity |]. split; [exact Hi |]. split; [cbn; congruence |]. split.
  - unfold captured. rewrite Hwire1, Hwire.
    change (frame_wire buf1 ++ flat_map frame_wire bufs)
      with (flat_map frame_wire (buf1 :: bufs)).
    rewrite commands_configuration_wire_app by apply payload_frame_wires.
    rewrite commands_frame_wires. reflexivity.
  - rewrite reset_writes_app, Hreset1, Hreset, Hrp1. cbn [reset_pin_ after_setup
      set_initialized_ set_buffer_ set_clock flat_map]. rewrite <- app_assoc. reflexivity.
Qed.

Lemma opcode_count_app opcode cs1 cs2 :
  opcode_count opcode (cs1 ++ cs2)
  = (opcode_count opcode cs1 + opcode_count opcode cs2)%nat.
Proof. unfold opcode_count. rewrite List.filter_app, length_app. reflexivity. Qed.

(** The commands 0x3C and 0x18 belong to the configuration alone; each
    write-and-refresh sequence has one activation command 0x20. *)
Lemma opcode_count_frame_sequences bufs :
  opcode_count 0x3C (flat_map frame_sequence bufs) = 0%nat
  /\ opcode_count 0x18 (flat_map frame_sequence bufs) = 0%nat
  /\ opcode_count 0x20 (flat_map frame_sequence bufs) = length bufs.
Proof.
  induction bufs as [| buf bufs (IH1 & IH2 & IH3)]; [repeat split |].
  cbn [flat_map length]. rewrite !opcode_count_app, IH1, IH2, IH3.
  repeat split.
Qed.

(** C2. The one-time configuration emits, as (opcode, payload) pairs and
    in this order: 0x12; 0x01 with 0x27, 0x01 (height - 1 = 295,
    little-endian) and 0x00; 0x11 with 0x03; 0x44 with 0x00, 0x0F; 0x45
    with 0x00, 0x00, 0x27, 0x01; 0x3C with 0x05; 0x18 with 0x80; 0x4E with
    0x00; 0x4F with 0x00, 0x00.  After [setup()], on a driver with a busy
    line, the first [update()] sends this sequence and sets the flag, and
    however many updates follow, the capture starts with this sequence
    and holds it once: what follows it is one write-and-refresh sequence
    per update, and the configuration's own commands (0x3C, 0x18) do not
    reappear.  The same holds from every configured state. *)
Theorem configuration_sequence_is_fixed fuel d :
  (enough_fuel <= fuel)%nat ->
  (exists d' tr,
      init_display_ fuel d = Done tt d' tr
      /\ same_driver d d'
      /\ captured tr
         = [ (0x12, []);
             (0x01, [0x27; 0x01; 0x00]);
             (0x11, [0x03]);
             (0x44, [0x00; 0x0F]);
             (0x45, [0x00; 0x00; 0x27; 0x01]);
             (0x3C, [0x05]);
             (0x18, [0x80]);
             (0x4E, [0x00]);
             (0x4F, [0x00; 0x00]) ])
  /\ [0x27; 0x01] = [(HEIGHT - 1) mod 256; (HEIGHT - 1) / 256]
  /\ (forall passes,
         initialized_ d = true ->
         length (buffer_ d) = Z.to_nat ALLSCREEN_BYTES ->
         exists d' tr bufs,
           updates fuel passes d = Done tt d' tr
           /\ write_phases fuel passes d = Done tt d' tr
           /\ initialized_ d' = true
           /\ length bufs = length passes
           /\ captured tr = flat_map frame_sequence bufs
           /\ Forall (fun c => fst c <> 0x3C /\ fst c <> 0x18) (captured tr))
  /\ (forall line draws passes,
         busy_pin_ d = Some line ->
         exists d0 tr0 d' tr bufs,
           setup d = Done tt d0 tr0
           /\ initialized_ d0 = false
           /\ captured tr0 = []
           /\ updates fuel (draws :: passes) d0 = Done tt d' tr
           /\ initialized_ d' = true
           /\ length bufs = S (length passes)
           /\ captured tr
              = [ (0x12, []);
                  (0x01, [0x27; 0x01; 0x00]);
                  (0x11, [0x03]);
                  (0x44, [0x00; 0x0F]);
                  (0x45, [0x00; 0x00; 0x27; 0x01]);
                  (0x3C, [0x05]);
                  (0x18, [0x80]);
                  (0x4E, [0x00]);
                  (0x4F, [0x00; 0x00]) ]
                ++ flat_map frame_sequence bufs
           /\ opcode_count 0x3C (captured tr) = 1%nat
           /\ opcode_count 0x18 (captured tr) = 1%nat
           /\ opcode_count 0x20 (captured tr) = S (length passes)).
Proof.
  intros Hfuel. split; [| split; [| split]].
  - destruct (init_display__runs fuel d Hfuel) as (d' & tr & Hrun & Hs & Hloud & _).
    exists d', tr. split; [exact Hrun |]. split; [exact Hs |].
    unfold captured. rewrite <- wire_loud, Hloud.
    apply captured_init_loud_events.
  - reflexivity.
  - intros passes Hinit Hlen.
    destruct (updates_configured_runs fuel passes d Hfuel Hinit Hlen)
      as (d' & tr & bufs & Hrun & Hphases & Hi & _ & _ & _ & Hn & Hwire & _).
    exists d', tr, bufs.
    assert (captured tr = flat_map frame_sequence bufs) as Hcap
      by (unfold captured; rewrite Hwire; apply commands_frame_wires).
    repeat split; try assumption.
    rewrite Hcap. apply frame_sequences_opcodes.
  - intros line draws passes Hline.
    destruct (updates_after_setup fuel draws passes d line Hfuel Hline)
      as (d' & tr & bufs & Hrun & Hi0 & Hi & Hn & Hcap & _).
    destruct (opcode_count_frame_sequences bufs) as (H3C & H18 & H20).
    exists (after_setup d), (setup_events d), d', tr, bufs.
    split; [apply setup_runs |]. split; [exact Hi0 |].
    split; [unfold setup_events; rewrite Hline; destruct (reset_pin_ d); reflexivity |].
    split; [exact Hrun |]. split; [exact Hi |]. split; [exact Hn |].
    split; [exact Hcap |].
    rewrite Hcap, !opcode_count_app, H3C, H18, H20, Hn. repeat split.
Qed.

Lemma configuration_sequence_is_fixed_witness :
  (enough_fuel <= enough_fuel)%nat
  /\ busy_pin_ full_board = Some idle_line
  /\ exists d0 tr0 d' tr bufs,
      setup full_board = Done tt d0 tr0
      /\ initialized_ d0 = false
      /\ updates enough_fuel [[(0, 0, COLOR_ON)]; []; [(5, 5, COLOR_OFF)]] d0 = Done tt d' tr
      /\ initialized_ d' = true
      /\ captured tr = configuration_sequence ++ flat_map frame_sequence bufs
      /\ opcode_count 0x3C (captured tr) = 1%nat
      /\ opcode_count 0x20 (captured tr) = 3%nat.
Proof.
  split; [lia |]. split; [reflexivity |].
  destruct (proj2 (proj2 (proj2
              (configuration_sequence_is_fixed enough_fuel full_board (le_n _))))
              idle_line [(0, 0, COLOR_ON)] [[]; [(5, 5, COLOR_OFF)]] eq_refl)
    as (d0 & tr0 & d' & tr & bufs & Hsetup & Hi0 & _ & Hrun & Hi & _ & Hcap & H3C & _ & H20).
  exists d0, tr0, d', tr, bufs. auto 10.
Defined.

(** C3, where the code departs from it.  After [setup()] the flag is
    false.  On a driver without a busy line the first [update()] reads
    the busy pin through its null pointer before the configuration is
    run: the call faults, the flag stays false and no write phase is
    performed. *)
Theorem first_update_without_busy_pin_faults fuel draws reset t0 :
  exists d tr,
    setup (power_on reset None t0) = Done tt d tr
    /\ initialized_ d = false
    /\ busy_pin_ d = None
    /\ update fuel draws d = Fault.
Proof.
  exists (after_setup (power_on reset None t0)), (setup_events (power_on reset None t0)).
  split; [apply setup_runs |]. repeat split.
Qed.

(** * Further properties of the driver's methods *)

(** ** Pixel writes compose *)

Lemma u8_bits v k : 0 <= k -> Z.testbit (u8 v) k = (k <? 8) && Z.testbit v k.
Proof. intros Hk. unfold u8. change 256 with (2 ^ 8). apply Z.testbit_mod_pow2. lia. Qed.

Lemma set_bits_bits j b k :
  0 <= j -> 0 <= k ->
  Z.testbit (set_bits (2 ^ j) b) k = (k <? 8) && (Z.testbit b k || (j =? k)).
Proof.
  intros Hj Hk. unfold set_bits.
  rewrite u8_bits, Z.lor_spec, Z.pow2_bits_eqb by lia. reflexivity.
Qed.

Lemma clear_bits_bits j b k :
  0 <= j -> 0 <= k ->
  Z.testbit (clear_bits (2 ^ j) b) k = (k <? 8) && (Z.testbit b k && negb (j =? k)).
Proof.
  intros Hj Hk. unfold clear_bits.
  rewrite u8_bits, Z.land_spec, Z.lnot_spec, Z.pow2_bits_eqb by lia. reflexivity.
Qed.

Lemma stored_bits x color b k :
  0 <= k ->
  Z.testbit (stored x color b) k
  = (k <? 8) && (if is_on color then Z.testbit b k || (bit_of_column x =? k)
                 else Z.testbit b k && negb (bit_of_column x =? k)).
Proof.
  intros Hk. pose proof (bit_of_column_range x) as Hr.
  unfold stored. rewrite bitmask_pow2.
  destruct (is_on color); [apply set_bits_bits | apply clear_bits_bits]; lia.
Qed.

(** The last write to a pixel wins. *)
Lemma stored_stored x color1 color2 b :
  stored x color2 (stored x color1 b) = stored x color2 b.
Proof.
  apply Z.bits_inj'. intros k Hk. rewrite !stored_bits by assumption.
  destruct (k <? 8), (is_on color1), (is_on color2), (Z.testbit b k),
    (bit_of_column x =? k); reflexivity.
Qed.

(** Writes to two bits of one byte commute. *)
Lemma stored_commute x1 color1 x2 color2 b :
  bit_of_column x1 <> bit_of_column x2 ->
  stored x1 color1 (stored x2 color2 b) = stored x2 color2 (stored x1 color1 b).
Proof.
  intros Hne. apply Z.bits_inj'. intros k Hk. rewrite !stored_bits by assumption.
  destruct (Z.eqb_spec (bit_of_column x1) k) as [E1 | N1],
           (Z.eqb_spec (bit_of_column x2) k) as [E2 | N2]; [congruence | | |];
    destruct (k <? 8), (is_on color1), (is_on color2), (Z.testbit b k); reflexivity.
Qed.

(** Two in-range pixels with the same byte and the same bit are one pixel. *)
Lemma pixel_address_injective x1 y1 x2 y2 :
  in_bounds x1 y1 -> in_bounds x2 y2 ->
  byte_index x1 y1 = byte_index x2 y2 ->
  bit_of_column x1 = bit_of_column x2 ->
  x1 = x2 /\ y1 = y2.
Proof.
  unfold in_bounds, byte_index, bit_of_column, WIDTH, HEIGHT.
  change (128 / 8) with 16. intros [Hx1 Hy1] [Hx2 Hy2] Hi Hb.
  pose proof (Z.div_mod x1 8 ltac:(lia)).
  pose proof (Z.div_mod x2 8 ltac:(lia)).
  pose proof (Z.mod_pos_bound x1 8 ltac:(lia)).
  pose proof (Z.mod_pos_bound x2 8 ltac:(lia)).
  lia.
Qed.

(** A pixel write as one buffer update, or none. *)
Lemma draw_cases x y color (buf : list Z) :
  length buf = Z.to_nat ALLSCREEN_BYTES ->
  (pixel_target x y = None /\ draw_absolute_pixel_internal x y color buf = Some buf)
  \/ (in_bounds x y
      /\ exists b,
          buf !! Z.to_nat (byte_index x y) = Some b
          /\ draw_absolute_pixel_internal x y color buf
             = Some (<[Z.to_nat (byte_index x y) := stored x color b]> buf)).
Proof.
  intros Hlen. destruct (pixel_target x y) as [[pos bit] |] eqn:Ht.
  - right. pose proof (pixel_target_checked x y pos bit Ht) as Hin.
    split; [exact Hin |]. apply draw_in_bounds; assumption.
  - left. split; [reflexivity |].
    unfold draw_absolute_pixel_internal. rewrite Ht. reflexivity.
Qed.

Lemma byte_index_nat_inj x1 y1 x2 y2 :
  in_bounds x1 y1 -> in_bounds x2 y2 ->
  Z.to_nat (byte_index x1 y1) = Z.to_nat (byte_index x2 y2) ->
  byte_index x1 y1 = byte_index x2 y2.
Proof.
  intros H1 H2 He.
  pose proof (byte_index_range x1 y1 H1). pose proof (byte_index_range x2 y2 H2). lia.
Qed.

(** X1. Writing one pixel twice is the same as writing it once with the
    second colour: the last write wins, and a repeated write changes
    nothing. *)
Theorem draw_pixel_last_write_wins x y color1 color2 (buf buf1 : list Z) :
  length buf = Z.to_nat ALLSCREEN_BYTES ->
  draw_absolute_pixel_internal x y color1 buf = Some buf1 ->
  draw_absolute_pixel_internal x y color2 buf1
  = draw_absolute_pixel_internal x y color2 buf
  /\ draw_absolute_pixel_internal x y color1 buf1 = Some buf1.
Proof.
  intros Hlen Hd1.
  assert (forall color, draw_absolute_pixel_internal x y color buf1
                        = draw_absolute_pixel_internal x y color buf) as Hwin.
  { intros color.
    destruct (draw_cases x y color1 buf Hlen) as [[Ht Hd] | (Hin & b & Hb & Hd)].
    - rewrite Hd in Hd1. injection Hd1 as <-. reflexivity.
    - rewrite Hd in Hd1. injection Hd1 as <-.
      pose proof (byte_index_range x y Hin) as Hr.
      destruct (draw_in_bounds x y color
                  (<[Z.to_nat (byte_index x y) := stored x color1 b]> buf) Hin)
        as (b1 & Hb1 & ->); [rewrite length_insert; exact Hlen |].
      destruct (draw_in_bounds x y color buf Hin Hlen) as (b0 & Hb0 & ->).
      rewrite list_lookup_insert_eq in Hb1 by lia. injection Hb1 as <-.
      assert (b0 = b) as -> by congruence.
      rewrite list_insert_insert_eq. f_equal. f_equal.
      apply (stored_stored x color1 color b). }
  split; [apply Hwin |]. rewrite Hwin. exact Hd1.
Qed.

Lemma draw_pixel_last_write_wins_witness :
  length fresh = Z.to_nat ALLSCREEN_BYTES
  /\ draw_absolute_pixel_internal 3 5 COLOR_OFF fresh
     = Some (<[80%nat := 0xEF]> fresh)
  /\ draw_absolute_pixel_internal 3 5 COLOR_ON (<[80%nat := 0xEF]> fresh)
     = draw_absolute_pixel_internal 3 5 COLOR_ON fresh.
Proof.
  assert (length fresh = Z.to_nat ALLSCREEN_BYTES) as Hlen by (vm_compute; reflexivity).
  assert (draw_absolute_pixel_internal 3 5 COLOR_OFF fresh = Some (<[80%nat := 0xEF]> fresh))
    as Hd by (vm_compute; reflexivity).
  split; [exact Hlen |]. split; [exact Hd |].
  exact (proj1 (draw_pixel_last_write_wins 3 5 COLOR_OFF COLOR_ON fresh _ Hlen Hd)).
Defined.

Lemma read_pixel_testbit x y (buf : list Z) :
  read_pixel x y buf
  = match buf !! Z.to_nat (byte_index x y) with
    | Some b => Some (Z.testbit b (bit_of_column x))
    | None => None
    end.
Proof.
  unfold read_pixel. destruct (buf !! Z.to_nat (byte_index x y)); [| reflexivity].
  rewrite bitmask_pow2, land_pow2_testbit by apply bit_of_column_range. reflexivity.
Qed.

(** X2. A pixel write leaves every other pixel of the panel as it reads:
    for a different in-range pixel, reading it back gives the same value
    before and after the write. *)
Theorem draw_pixel_leaves_other_pixels x y color x' y' (buf buf' : list Z) :
  length buf = Z.to_nat ALLSCREEN_BYTES ->
  in_bounds x' y' ->
  (x', y') <> (x, y) ->
  draw_absolute_pixel_internal x y color buf = Some buf' ->
  read_pixel x' y' buf' = read_pixel x' y' buf.
Proof.
  intros Hlen Hin' Hne Hd.
  destruct (draw_cases x y color buf Hlen) as [[_ Hd0] | (Hin & b & Hb & Hd0)];
    rewrite Hd0 in Hd; injection Hd as <-; [reflexivity |].
  rewrite !read_pixel_testbit.
  pose proof (byte_index_range x y Hin) as Hr.
  destruct (decide (Z.to_nat (byte_index x' y') = Z.to_nat (byte_index x y))) as [He | Hn].
  - rewrite He, list_lookup_insert_eq, Hb by lia. f_equal.
    pose proof (bit_of_column_range x') as Hc.
    apply other_bits; [exact Hc |]. intros Hbit.
    apply Hne.
    destruct (pixel_address_injective x' y' x y Hin' Hin
                (byte_index_nat_inj x' y' x y Hin' Hin He) Hbit) as [-> ->].
    reflexivity.
  - rewrite list_lookup_insert_ne by congruence. reflexivity.
Qed.

Lemma draw_pixel_leaves_other_pixels_witness :
  length fresh = Z.to_nat ALLSCREEN_BYTES
  /\ in_bounds 4 5
  /\ (4, 5) <> (3, 5)
  /\ draw_absolute_pixel_internal 3 5 COLOR_OFF fresh = Some (<[80%nat := 0xEF]> fresh)
  /\ read_pixel 4 5 (<[80%nat := 0xEF]> fresh) = read_pixel 4 5 fresh.
Proof.
  assert (length fresh = Z.to_nat ALLSCREEN_BYTES) as Hlen by (vm_compute; reflexivity).
  assert (in_bounds 4 5) as Hin by (unfold in_bounds, WIDTH, HEIGHT; lia).
  assert ((4, 5) <> (3, 5)) as Hne by discriminate.
  assert (draw_absolute_pixel_internal 3 5 COLOR_OFF fresh = Some (<[80%nat := 0xEF]> fresh))
    as Hd by (vm_compute; reflexivity).
  split; [exact Hlen |]. split; [exact Hin |]. split; [exact Hne |]. split; [exact Hd |].
  exact (draw_pixel_leaves_other_pixels 3 5 COLOR_OFF 4 5 fresh _ Hlen Hin Hne Hd).
Defined.

(** X3. Writes to two different pixels commute: in either order both
    succeed and give the same buffer. *)
Theorem draw_pixel_commutes x1 y1 color1 x2 y2 color2 (buf : list Z) :
  length buf = Z.to_nat ALLSCREEN_BYTES ->
  (x1, y1) <> (x2, y2) ->
  exists buf1 buf2 final,
    draw_absolute_pixel_internal x1 y1 color1 buf = Some buf1
    /\ draw_absolute_pixel_internal x2 y2 color2 buf1 = Some final
    /\ draw_absolute_pixel_internal x2 y2 color2 buf = Some buf2
    /\ draw_absolute_pixel_internal x1 y1 color1 buf2 = Some final.
Proof.
  intros Hlen Hne.
  destruct (draw_cases x1 y1 color1 buf Hlen) as [[Ht1 Hd1] | (Hin1 & b1 & Hb1 & Hd1)];
    destruct (draw_cases x2 y2 color2 buf Hlen) as [[Ht2 Hd2] | (Hin2 & b2 & Hb2 & Hd2)].
  - exists buf, buf, buf. auto.
  - eexists buf, _, _. split; [exact Hd1 |]. split; [exact Hd2 |]. split; [exact Hd2 |].
    unfold draw_absolute_pixel_internal. rewrite Ht1. reflexivity.
  - eexists _, buf, _. split; [exact Hd1 |]. split; [| split; [exact Hd2 | exact Hd1]].
    unfold draw_absolute_pixel_internal. rewrite Ht2. reflexivity.
  - pose proof (byte_index_range x1 y1 Hin1) as Hr1.
    pose proof (byte_index_range x2 y2 Hin2) as Hr2.
    set (i1 := Z.to_nat (byte_index x1 y1)) in *.
    set (i2 := Z.to_nat (byte_index x2 y2)) in *.
    destruct (draw_in_bounds x2 y2 color2 (<[i1 := stored x1 color1 b1]> buf) Hin2)
      as (c2 & Hc2 & Hd12); [rewrite length_insert; exact Hlen |].
    destruct (draw_in_bounds x1 y1 color1 (<[i2 := stored x2 color2 b2]> buf) Hin1)
      as (c1 & Hc1 & Hd21); [rewrite length_insert; exact Hlen |].
    fold i1 in Hc1, Hd21. fold i2 in Hc2, Hd12.
    eexists _, _, _. split; [exact Hd1 |]. split; [exact Hd12 |].
    split; [exact Hd2 |]. rewrite Hd21. f_equal.
    destruct (decide (i1 = i2)) as [He | Hn].
    + rewrite He in *. rewrite list_lookup_insert_eq in Hc1, Hc2 by (subst i2; lia).
      injection Hc1 as <-. injection Hc2 as <-.
      assert (b1 = b2) as -> by congruence.
      rewrite !list_insert_insert_eq. f_equal.
      apply stored_commute. intros Hbit. apply Hne.
      destruct (pixel_address_injective x1 y1 x2 y2 Hin1 Hin2
                  (byte_index_nat_inj x1 y1 x2 y2 Hin1 Hin2 He) Hbit) as [-> ->].
      reflexivity.
    + rewrite list_lookup_insert_ne in Hc1, Hc2 by congruence.
      assert (c1 = b1) as -> by congruence. assert (c2 = b2) as -> by congruence.
      apply list_insert_insert_ne. exact Hn.
Qed.

Lemma draw_pixel_commutes_witness :
  length fresh = Z.to_nat ALLSCREEN_BYTES
  /\ (3, 5) <> (4, 5)
  /\ exists buf1 buf2 final,
      draw_absolute_pixel_internal 3 5 COLOR_OFF fresh = Some buf1
      /\ draw_absolute_pixel_internal 4 5 COLOR_OFF buf1 = Some final
      /\ draw_absolute_pixel_internal 4 5 COLOR_OFF fresh = Some buf2
      /\ draw_absolute_pixel_internal 3 5 COLOR_OFF buf2 = Some final.
Proof.
  assert (length fresh = Z.to_nat ALLSCREEN_BYTES) as Hlen by (vm_compute; reflexivity).
  assert ((3, 5) <> (4, 5)) as Hne by discriminate.
  split; [exact Hlen |]. split; [exact Hne |].
  exact (draw_pixel_commutes 3 5 COLOR_OFF 4 5 COLOR_OFF fresh Hlen Hne).
Defined.

(** ** How long the handshake takes *)

(** The loop of [wait_until_idle_] on a line that reads busy [k] more
    times and then idle. *)
Lemma wait_until_idle_loop_released line : forall k fuel d c0,
  busy_pin_ d = Some line ->
  (forall j, (j < k)%nat -> line (busy_reads d + j)%nat = true) ->
  line (busy_reads d + k)%nat = false ->
  0 <= clock d - c0 ->
  clock d - c0 + 10 * Z.of_nat k <= 10010 ->
  (k < fuel)%nat ->
  exists d',
    wait_until_idle_loop fuel (u32 c0) d
    = Done false d' (concat (replicate k stuck_poll) ++ [PinRead BUSY false])
    /\ same_driver d d'
    /\ clock d' = clock d + 10 * Z.of_nat k
    /\ busy_reads d' = (busy_reads d + k + 1)%nat.
Proof.
  induction k as [| k IH]; intros fuel d c0 Hline Hbusy Hidle He Hk Hfuel;
    (destruct fuel as [| fuel]; [lia |]);
    cbn [wait_until_idle_loop]; unfold bind at 1, busy_pin_digital_read at 1;
    rewrite Hline; cbv zeta.
  - rewrite Nat.add_0_r in Hidle. rewrite Hidle.
    eexists. split; [reflexivity |]. cbn. repeat split; lia.
  - assert (line (busy_reads d) = true) as ->
      by (rewrite <- (Nat.add_0_r (busy_reads d)); apply Hbusy; lia).
    unfold bind at 1, millis at 1, get_ at 1. cbn [clock set_busy_reads].
    rewrite u32_elapsed by (change (2 ^ 32) with 4294967296; lia).
    assert ((clock d - c0 >? 10000) = false) as -> by lia.
    destruct (IH fuel (set_clock (clock d + 10) (set_busy_reads (S (busy_reads d)) d)) c0)
      as (d' & Hrun & Hsame & Hclock & Hreads).
    + exact Hline.
    + intros j Hj. cbn [busy_reads set_clock set_busy_reads].
      rewrite Nat.add_succ_comm. apply Hbusy. lia.
    + cbn [busy_reads set_clock set_busy_reads]. rewrite Nat.add_succ_comm. exact Hidle.
    + cbn. lia.
    + cbn. lia.
    + lia.
    + unfold bind at 1, delay at 1. cbn [clock set_busy_reads prepend].
      unfold bind at 1, feed_wdt at 1, emit at 1. cbn [prepend].
      rewrite Hrun. unfold same_driver in *. cbn in Hsame, Hclock, Hreads |- *.
      eexists. split; [reflexivity |]. intuition lia.
Qed.

(** X5. When the busy line reads busy at the first [k] polls of
    [wait_until_idle_] and idle at the next one (k <= 1001), the call
    returns after exactly 10 * k + 10 ms of sleep and k + 2 reads of the
    line: a release of the line is seen at the next 10 ms poll, up to and
    including the poll at 10010 ms. *)
Theorem wait_until_idle__sees_release fuel d line k :
  (enough_fuel <= fuel)%nat ->
  busy_pin_ d = Some line ->
  (k <= 1001)%nat ->
  (forall j, (j < k)%nat -> line (S (busy_reads d) + j)%nat = true) ->
  line (S (busy_reads d) + k)%nat = false ->
  exists d',
    wait_until_idle_ fuel d
    = Done tt d' (PinRead BUSY (line (busy_reads d))
                    :: concat (replicate k stuck_poll) ++ [PinRead BUSY false; Delay 10])
    /\ same_driver d d'
    /\ clock d' = clock d + 10 * Z.of_nat k + 10
    /\ busy_reads d' = (busy_reads d + k + 2)%nat.
Proof.
  unfold enough_fuel. intros Hfuel Hline Hk Hbusy Hidle.
  unfold wait_until_idle_.
  rewrite (bind_done _ _ _ _ _ _ (busy_pin_present_some d line Hline)).
  cbn [negb prepend]. unfold bind at 1, millis at 1, get_ at 1.
  unfold bind at 1, busy_pin_digital_read at 1. rewrite Hline. cbv zeta.
  destruct (wait_until_idle_loop_released line k fuel
              (set_busy_reads (S (busy_reads d)) d) (clock d))
    as (d' & Hrun & Hsame & Hclock & Hreads);
    [exact Hline | exact Hbusy | exact Hidle | cbn; lia | cbn; lia | lia |].
  unfold bind at 1. rewrite Hrun. cbn [prepend ret app delay].
  rewrite <- app_assoc. cbn [app].
  eexists. split; [reflexivity |].
  unfold same_driver in *. cbn in Hsame, Hclock, Hreads |- *. intuition lia.
Qed.

Lemma wait_until_idle__sees_release_witness :
  exists d',
    wait_until_idle_ enough_fuel (power_on true (Some (fun n => (n <? 4)%nat)) 0)
    = Done tt d' (PinRead BUSY true
                    :: concat (replicate 3 stuck_poll) ++ [PinRead BUSY false; Delay 10])
    /\ clock d' = 40.
Proof.
  destruct (wait_until_idle__sees_release enough_fuel
              (power_on true (Some (fun n => (n <? 4)%nat)) 0)
              (fun n => (n <? 4)%nat) 3 (le_n _) eq_refl)
    as (d' & Hrun & _ & Hclock & _).
  - lia.
  - intros j Hj. cbn [busy_reads power_on].
    apply Nat.ltb_lt. lia.
  - reflexivity.
  - exists d'. split; [exact Hrun | exact Hclock].
Defined.

(** The polling loop of [full_update_] on a line that never reads idle,
    with [n] polls left before the 5000 ms limit is passed. *)
Lemma poll_while_busy_refresh_stuck line :
  (forall k, line k = true) ->
  forall n fuel d c0,
    busy_pin_ d = Some line ->
    clock d - c0 = 5100 - 100 * Z.of_nat n ->
    (n <= 51)%nat -> (n < fuel)%nat ->
    exists d',
      poll_while_busy fuel (u32 c0) 5000 100 d
      = Done tt d' (concat (replicate n refresh_poll) ++ [PinRead BUSY true])
      /\ same_driver d d'
      /\ clock d' = c0 + 5100.
Proof.
  intros Hstuck. induction n as [| n IH]; intros fuel d c0 Hline He Hn Hfuel;
    (destruct fuel as [| fuel]; [lia |]);
    cbn [poll_while_busy];
    rewrite (bind_done _ _ _ _ _ _ (busy_pin_present_some d line Hline));
    cbn [negb prepend app]; unfold bind at 1, busy_pin_digital_read at 1;
    rewrite Hline, Hstuck; cbv zeta; cbn [negb];
    unfold bind at 1, millis at 1, get_ at 1; cbn [clock set_busy_reads];
    rewrite u32_elapsed by (change (2 ^ 32) with 4294967296; lia).
  - assert ((clock d - c0 >? 5000) = true) as -> by lia.
    eexists. split; [reflexivity |]. cbn. repeat split; lia.
  - assert ((clock d - c0 >? 5000) = false) as -> by lia.
    destruct (IH fuel (set_clock (clock d + 100) (set_busy_reads (S (busy_reads d)) d)) c0)
      as (d' & Hrun & Hsame & Hclock); [exact Hline | cbn; lia | lia | lia |].
    unfold bind at 1, delay at 1. cbn [clock set_busy_reads prepend].
    unfold bind at 1, feed_wdt at 1, emit at 1. cbn [prepend].
    rewrite Hrun. unfold same_driver in *. cbn in Hsame |- *.
    eexists. split; [reflexivity |]. intuition lia.
Qed.

Lemma full_update__no_busy_pin fuel d :
  (0 < fuel)%nat -> busy_pin_ d = None ->
  full_update_ fuel d = Done tt d refresh_events.
Proof.
  intros Hfuel Hnone. destruct fuel as [| fuel]; [lia |].
  unfold full_update_, millis. do 4 step. cbv beta. cbn [poll_while_busy].
  rewrite (bind_done _ _ _ _ _ _ (busy_pin_present_none d Hnone)). reflexivity.
Qed.

(** X6. [full_update_] sends the update-control value 0xF7 and the
    activation command and always returns.  Without a busy line it
    returns at once, without sleeping; with a busy line it sleeps at most
    5100 ms, and exactly that, in 51 polls of 100 ms, when the line
    never reads idle. *)
Theorem full_update__always_returns fuel d :
  (enough_fuel <= fuel)%nat ->
  (exists d' w,
      full_update_ fuel d = Done tt d' (refresh_events ++ w)
      /\ same_driver d d'
      /\ captured (refresh_events ++ w) = [(0x22, [0xF7]); (0x20, [])]
      /\ clock d' = clock d + slept w
      /\ 0 <= slept w <= 5100)
  /\ (busy_pin_ d = None -> full_update_ fuel d = Done tt d refresh_events)
  /\ (forall line,
         busy_pin_ d = Some line -> (forall k, line k = true) ->
         exists d',
           full_update_ fuel d
           = Done tt d' (refresh_events
                           ++ concat (replicate 51 refresh_poll) ++ [PinRead BUSY true])
           /\ same_driver d d'
           /\ clock d' = clock d + 5100).
Proof.
  intros Hfuel. split; [| split].
  - destruct (full_update__runs fuel d Hfuel) as (c & r & w & Hrun & Hq & Hc & Hb).
    eexists _, w. split; [exact Hrun |]. split; [repeat split |].
    split; [| split; [exact Hc | exact Hb]].
    unfold captured, refresh_events. rewrite <- !app_assoc.
    rewrite wire_command_events, wire_data_events, wire_command_events.
    rewrite (wire_quiet w) by assumption. reflexivity.
  - intros Hnone. apply full_update__no_busy_pin; [| exact Hnone].
    unfold enough_fuel in Hfuel. lia.
  - intros line Hline Hstuck. unfold enough_fuel in Hfuel.
    unfold full_update_, millis. do 4 step. cbv beta.
    destruct (poll_while_busy_refresh_stuck line Hstuck 51 fuel d (clock d))
      as (d' & Hrun & Hsame & Hclock); [exact Hline | lia | lia | lia |].
    rewrite Hrun. cbn [prepend]. exists d'.
    split; [unfold refresh_events; rewrite <- !app_assoc; reflexivity |].
    split; [exact Hsame | exact Hclock].
Qed.

Lemma full_update__always_returns_witness :
  (enough_fuel <= enough_fuel)%nat
  /\ full_update_ enough_fuel board_without_busy = Done tt board_without_busy refresh_events.
Proof.
  split; [lia |].
  exact (proj1 (proj2 (full_update__always_returns enough_fuel board_without_busy (le_n _)))
           eq_refl).
Defined.

(** ** How long the controller sequences take *)

Lemma slept_primary_plane buf : slept (primary_plane_events buf) = 0.
Proof. induction buf as [| b buf IH]; [reflexivity |]. cbn. exact IH. Qed.

Lemma slept_secondary_plane : slept secondary_plane_events = 0.
Proof.
  unfold secondary_plane_events. generalize (Z.to_nat ALLSCREEN_BYTES). intros n.
  induction n as [| n IH]; [reflexivity |]. cbn. exact IH.
Qed.

Lemma slept_frame_events reset w1 w2 w3 w4 buf :
  slept (frame_events reset w1 w2 w3 w4 buf)
  = (if reset then 20 else 0) + slept w1 + 10 + slept w2 + slept w3 + slept w4.
Proof.
  unfold frame_events. rewrite !slept_app, slept_primary_plane, slept_secondary_plane.
  destruct reset; cbn; lia.
Qed.

(** [init_display_] with its duration. *)
Lemma init_display__timed fuel d :
  (enough_fuel <= fuel)%nat ->
  exists d' tr,
    init_display_ fuel d = Done tt d' tr
    /\ same_driver d d'
    /\ clock d' = clock d + slept tr
    /\ (if reset_pin_ d then 150 else 120) <= slept tr
    /\ slept tr <= (if reset_pin_ d then 2160 else 2130).
Proof.
  intros Hfuel. unfold init_display_, reset_pin_present, millis.
  step_log. step. project.
  destruct (reset_pin_ d) eqn:Hreset.
  - repeat step. step_log. repeat step. step_log. repeat step. step_log.
    repeat step. step_log. repeat step. step_log. repeat step.
    step_poll Hfuel. repeat step. cbv beta.
    match goal with
    | |- context [log_busy_state ?st] =>
        destruct (log_busy_state_quiet st) as (c6 & r6 & w6 & -> & Hq6 & Hc6 & Hb6)
    end.
    project_in Hc6. cbn [prepend].
    eexists _, _. split; [reflexivity |]. split; [repeat split |].
    rewrite !slept_app. cbn. lia.
  - repeat step. step_log. repeat step. step_log. repeat step.
    step_poll Hfuel. repeat step. cbv beta.
    match goal with
    | |- context [log_busy_state ?st] =>
        destruct (log_busy_state_quiet st) as (c6 & r6 & w6 & -> & Hq6 & Hc6 & Hb6)
    end.
    project_in Hc6. cbn [prepend].
    eexists _, _. split; [reflexivity |]. split; [repeat split |].
    rewrite !slept_app. cbn. lia.
Qed.

(** [display_frame_] with the duration of each of its waits. *)
Lemma display_frame__timed fuel d :
  (enough_fuel <= fuel)%nat ->
  length (buffer_ d) = Z.to_nat ALLSCREEN_BYTES ->
  exists d' w1 w2 w3 w4,
    display_frame_ fuel d = Done tt d' (frame_events (reset_pin_ d) w1 w2 w3 w4 (buffer_ d))
    /\ same_driver d d'
    /\ clock d' = clock d + slept (frame_events (reset_pin_ d) w1 w2 w3 w4 (buffer_ d))
    /\ 0 <= slept w1 <= 10020 /\ 0 <= slept w2 <= 10020
    /\ 0 <= slept w3 <= 10020 /\ 0 <= slept w4 <= 5100.
Proof.
  intros Hfuel Hlen. unfold display_frame_, reset_pin_present.
  step.
  destruct (reset_pin_ d) eqn:Hreset.
  - repeat step. step_wait Hfuel. repeat step. step_wait Hfuel. repeat step.
    step_primary Hlen. repeat step. step_secondary.
    step_wait Hfuel. cbv beta.
    match goal with
    | |- context [full_update_ fuel ?st] =>
        destruct (full_update__runs fuel st Hfuel) as (c2 & r2 & w2 & -> & Hq2 & Hc2 & Hb2)
    end.
    cbn [prepend]. project_in Hc2.
    exists (set_busy_reads r2 (set_clock c2 d)), w, w0, w1, w2.
    split; [destruct d; reflexivity |]. split; [repeat split |].
    rewrite slept_frame_events. cbn. repeat split; lia.
  - repeat step. step_wait Hfuel. repeat step. step_wait Hfuel. repeat step.
    step_primary Hlen. repeat step. step_secondary.
    step_wait Hfuel. cbv beta.
    match goal with
    | |- context [full_update_ fuel ?st] =>
        destruct (full_update__runs fuel st Hfuel) as (c2 & r2 & w2 & -> & Hq2 & Hc2 & Hb2)
    end.
    cbn [prepend]. project_in Hc2.
    exists (set_busy_reads r2 (set_clock c2 d)), w, w0, w1, w2.
    split; [destruct d; reflexivity |]. split; [repeat split |].
    rewrite slept_frame_events. cbn. repeat split; lia.
Qed.

(** X7. The one-time configuration always returns, leaves pins, flag and
    buffer as they were, and sleeps between 120 and 2130 ms (between 150
    and 2160 ms with a reset line, whose pulse takes 30 ms): a busy line
    that stays busy after the software reset delays it by at most
    2010 ms. *)
Theorem init_display__is_bounded fuel d :
  (enough_fuel <= fuel)%nat ->
  exists d' tr,
    init_display_ fuel d = Done tt d' tr
    /\ same_driver d d'
    /\ clock d' = clock d + slept tr
    /\ (if reset_pin_ d then 150 else 120) <= slept tr
    /\ slept tr <= (if reset_pin_ d then 2160 else 2130).
Proof. apply init_display__timed. Qed.

Lemma init_display__is_bounded_witness :
  (enough_fuel <= enough_fuel)%nat
  /\ exists d' tr,
      init_display_ enough_fuel (after_setup full_board) = Done tt d' tr
      /\ same_driver (after_setup full_board) d'
      /\ clock d' = clock (after_setup full_board) + slept tr
      /\ 150 <= slept tr
      /\ slept tr <= 2160.
Proof.
  split; [lia |].
  exact (init_display__is_bounded enough_fuel (after_setup full_board) (le_n _)).
Defined.

(** X8. A write-and-refresh phase always returns, changes neither the
    buffer nor the flag nor the pins, and sleeps at most 35170 ms (35190
    with a reset line): three waits of at most 10020 ms, the refresh poll
    of at most 5100 ms, and the fixed delays. *)
Theorem display_frame__is_bounded fuel d :
  (enough_fuel <= fuel)%nat ->
  length (buffer_ d) = Z.to_nat ALLSCREEN_BYTES ->
  exists d' tr,
    display_frame_ fuel d = Done tt d' tr
    /\ same_driver d d'
    /\ clock d' = clock d + slept tr
    /\ (if reset_pin_ d then 30 else 10) <= slept tr
    /\ slept tr <= (if reset_pin_ d then 35190 else 35170).
Proof.
  intros Hfuel Hlen.
  destruct (display_frame__timed fuel d Hfuel Hlen)
    as (d' & w1 & w2 & w3 & w4 & Hrun & Hs & Hc & H1 & H2 & H3 & H4).
  eexists d', _. split; [exact Hrun |]. split; [exact Hs |]. split; [exact Hc |].
  rewrite slept_frame_events. destruct (reset_pin_ d); lia.
Qed.

Lemma display_frame__is_bounded_witness :
  (enough_fuel <= enough_fuel)%nat
  /\ length (buffer_ (after_setup full_board)) = Z.to_nat ALLSCREEN_BYTES
  /\ exists d' tr,
      display_frame_ enough_fuel (after_setup full_board) = Done tt d' tr
      /\ same_driver (after_setup full_board) d'
      /\ clock d' = clock (after_setup full_board) + slept tr
      /\ 30 <= slept tr
      /\ slept tr <= 35190.
Proof.
  assert (length (buffer_ (after_setup full_board)) = Z.to_nat ALLSCREEN_BYTES) as Hlen
    by (vm_compute; reflexivity).
  split; [lia |]. split; [exact Hlen |].
  exact (display_frame__is_bounded enough_fuel (after_setup full_board) (le_n _) Hlen).
Defined.

Ltac step_wait_no_busy Hnone :=
  cbv beta;
  match goal with
  | |- context [bind (wait_until_idle_ ?f) ?k ?st] =>
      rewrite (bind_done _ k st _ _ _ (wait_until_idle__no_busy_pin f st Hnone))
  end;
  project.

(** X9. Without a busy line a write-and-refresh phase is one fixed
    sequence: each of its three waits is a single 100 ms sleep, the
    refresh is triggered and the call returns without waiting for it;
    it sleeps 310 ms in all (330 ms with a reset line). *)
Theorem display_frame__without_busy_pin fuel d :
  (0 < fuel)%nat ->
  length (buffer_ d) = Z.to_nat ALLSCREEN_BYTES ->
  busy_pin_ d = None ->
  display_frame_ fuel d
  = Done tt (set_clock (clock d + (if reset_pin_ d then 330 else 310)) d)
         (frame_events (reset_pin_ d) [Delay 100] [Delay 100] [Delay 100] [] (buffer_ d)).
Proof.
  intros Hfuel Hlen Hnone. unfold display_frame_, reset_pin_present.
  step.
  destruct (reset_pin_ d) eqn:Hreset.
  - repeat step. step_wait_no_busy Hnone. repeat step. step_wait_no_busy Hnone.
    repeat step. step_primary Hlen. repeat step. step_secondary.
    step_wait_no_busy Hnone. cbv beta.
    rewrite full_update__no_busy_pin by assumption.
    cbn [prepend]. f_equal.
    destruct d. unfold set_clock. cbn. f_equal. lia.
  - repeat step. step_wait_no_busy Hnone. repeat step. step_wait_no_busy Hnone.
    repeat step. step_primary Hlen. repeat step. step_secondary.
    step_wait_no_busy Hnone. cbv beta.
    rewrite full_update__no_busy_pin by assumption.
    cbn [prepend]. f_equal.
    destruct d. unfold set_clock. cbn. f_equal. lia.
Qed.

Lemma display_frame__without_busy_pin_witness :
  (0 < 1)%nat
  /\ length (buffer_ (after_setup board_without_busy)) = Z.to_nat ALLSCREEN_BYTES
  /\ busy_pin_ (after_setup board_without_busy) = None
  /\ slept (trace_of (display_frame_ 1 (after_setup board_without_busy))) = 330.
Proof.
  assert (length (buffer_ (after_setup board_without_busy)) = Z.to_nat ALLSCREEN_BYTES)
    as Hlen by (vm_compute; reflexivity).
  split; [lia |]. split; [exact Hlen |]. split; [reflexivity |].
  rewrite (display_frame__without_busy_pin 1 (after_setup board_without_busy)
             (le_n _) Hlen eq_refl).
  unfold trace_of. rewrite slept_frame_events. reflexivity.
Defined.

(** ** The reset pulse *)

(** X10. [hw_reset_] never faults: without a reset line it does nothing at
    all; with one it writes high, low, high and sleeps 30 ms.  The
    one-time configuration drives the reset line through the same
    writes. *)
Theorem hw_reset__matches_init_display_ fuel d :
  (enough_fuel <= fuel)%nat ->
  exists d1 tr1 d2 tr2,
    hw_reset_ d = Done tt d1 tr1
    /\ init_display_ fuel d = Done tt d2 tr2
    /\ reset_writes tr1 = reset_writes tr2
    /\ reset_writes tr1 = (if reset_pin_ d then [true; false; true] else [])
    /\ slept tr1 = (if reset_pin_ d then 30 else 0)
    /\ same_driver d d1
    /\ (reset_pin_ d = false -> d1 = d /\ tr1 = []).
Proof.
  intros Hfuel.
  destruct (init_display__runs fuel d Hfuel) as (d2 & tr2 & Hrun2 & _ & Hloud & _).
  assert (reset_writes tr2 = if reset_pin_ d then [true; false; true] else []) as Hw2
    by (rewrite <- reset_writes_loud, Hloud; destruct (reset_pin_ d); reflexivity).
  unfold hw_reset_, reset_pin_present. rewrite bind_get_.
  destruct (reset_pin_ d) eqn:Hreset; cbn [negb].
  - repeat step. cbv beta. unfold delay. cbn [prepend app].
    eexists _, _, d2, tr2. split; [reflexivity |]. split; [exact Hrun2 |].
    rewrite Hw2. repeat split; discriminate.
  - exists d, [], d2, tr2. split; [reflexivity |]. split; [exact Hrun2 |].
    rewrite Hw2. repeat split.
Qed.

Lemma hw_reset__matches_init_display__witness :
  (enough_fuel <= enough_fuel)%nat
  /\ exists d1 tr1,
      hw_reset_ (after_setup full_board) = Done tt d1 tr1
      /\ reset_writes tr1 = [true; false; true]
      /\ slept tr1 = 30.
Proof.
  split; [lia |].
  destruct (hw_reset__matches_init_display_ enough_fuel (after_setup full_board) (le_n _))
    as (d1 & tr1 & d2 & tr2 & H1 & _ & _ & Hw & Hs & _).
  exists d1, tr1. split; [exact H1 |]. split; [exact Hw | exact Hs].
Defined.

(** ** Block transfer and per-byte transfer *)

Lemma wire_primary_plane_only buf dc :
  wire dc (primary_plane_events buf) = map (pair true) (map inverted buf).
Proof.
  revert dc. induction buf as [| b buf IH]; intros dc; [reflexivity |].
  cbn [primary_plane_events flat_map map].
  rewrite wire_data_events. f_equal. apply IH.
Qed.

Lemma transactions_primary_plane_only buf dc open :
  transactions dc open (primary_plane_events buf)
  = map (fun b => (true, [inverted b])) buf.
Proof.
  revert dc open. induction buf as [| b buf IH]; intros dc open; [reflexivity |].
  cbn [primary_plane_events flat_map map].
  rewrite transactions_data_events. f_equal. apply IH.
Qed.

(** X11. [send_data_] puts a whole block on the bus inside one scoped
    transaction with the selector at "data".  Given the inverted frame
    buffer it would deliver to the chip exactly the bytes that the
    per-byte loop of the write phase delivers in 4736 transactions. *)
Theorem send_data__delivers_the_plane d dc :
  length (buffer_ d) = Z.to_nat ALLSCREEN_BYTES ->
  exists loop block,
    for_upto ALLSCREEN_BYTES (fun i => b <- buffer_at i ;; data_ (u8 (Z.lnot b))) d
    = Done tt d loop
    /\ send_data_ (map inverted (buffer_ d)) d = Done tt d block
    /\ wire dc block = wire dc loop
    /\ wire dc block = map (pair true) (map inverted (buffer_ d))
    /\ transactions dc None block = [(true, map inverted (buffer_ d))]
    /\ transactions dc None loop = map (fun b => (true, [inverted b])) (buffer_ d)
    /\ length (transactions dc None loop) = 4736%nat.
Proof.
  intros Hlen. eexists _, _. split; [apply for_upto_primary; exact Hlen |].
  split; [reflexivity |].
  rewrite wire_primary_plane_only, transactions_primary_plane_only.
  cbn [wire transactions app option_map]. rewrite app_nil_r, length_map, Hlen.
  repeat split.
Qed.

Lemma send_data__delivers_the_plane_witness :
  length (buffer_ (after_setup full_board)) = Z.to_nat ALLSCREEN_BYTES
  /\ exists loop block,
      for_upto ALLSCREEN_BYTES (fun i => b <- buffer_at i ;; data_ (u8 (Z.lnot b)))
               (after_setup full_board)
      = Done tt (after_setup full_board) loop
      /\ send_data_ (map inverted (buffer_ (after_setup full_board))) (after_setup full_board)
         = Done tt (after_setup full_board) block
      /\ wire false block = wire false loop.
Proof.
  assert (length (buffer_ (after_setup full_board)) = Z.to_nat ALLSCREEN_BYTES) as Hlen
    by (vm_compute; reflexivity).
  split; [exact Hlen |].
  destruct (send_data__delivers_the_plane (after_setup full_board) false Hlen)
    as (loop & block & H1 & H2 & H3 & _).
  exists loop, block. auto.
Defined.

(** ** From a pixel write to the wire *)

(** X12. A pixel drawn during an update of a configured driver reaches
    the chip inverted: in the payload of "write primary RAM" the byte at
    the pixel's index has the pixel's bit clear when the pixel is on and
    set when it is off, while the buffer keeps the pixel as drawn. *)
Theorem update_sends_pixel_inverted fuel d x y color :
  (enough_fuel <= fuel)%nat ->
  initialized_ d = true ->
  length (buffer_ d) = Z.to_nat ALLSCREEN_BYTES ->
  in_bounds x y ->
  exists d' tr plane byte,
    update fuel [(x, y, color)] d = Done tt d' tr
    /\ In (0x24, plane) (captured tr)
    /\ length plane = 4736%nat
    /\ plane !! Z.to_nat (byte_index x y) = Some byte
    /\ Z.testbit byte (bit_of_column x) = negb (is_on color)
    /\ read_pixel x y (buffer_ d') = Some (is_on color).
Proof.
  intros Hfuel Hinit Hlen Hin.
  destruct (write_phase_runs fuel [(x, y, color)] d Hfuel Hlen)
    as (d' & buf' & tr & Hrun & Hr & Hframe & Hs & Hlen' & _).
  destruct (draw_in_bounds x y color (buffer_ d) Hin Hlen) as (b & Hb & Hd).
  cbn [render] in Hr. rewrite Hd in Hr. injection Hr as <-.
  destruct Hframe as (w1 & w2 & w3 & w4 & -> & H1 & H2 & H3 & H4).
  destruct Hs as (_ & _ & _ & Hbuf). cbn in Hbuf.
  pose proof (byte_index_range x y Hin) as Hrange.
  eexists d', _, _, _. split; [rewrite update_configured by assumption; exact Hrun |].
  rewrite captured_frame_events by assumption.
  split; [unfold frame_sequence; do 7 right; left; reflexivity |].
  split; [rewrite length_map, length_insert, Hlen; reflexivity |].
  split; [apply lookup_map_inverted, list_lookup_insert_eq; lia |].
  split.
  - rewrite inverted_testbit by apply bit_of_column_range. f_equal. apply written_bit.
  - rewrite Hbuf, read_pixel_insert by lia. f_equal. apply written_bit.
Qed.

Lemma update_sends_pixel_inverted_witness :
  exists d' tr plane byte,
    update enough_fuel [(9, 2, COLOR_ON)]
           (set_initialized_ true (set_buffer_ (replicate 4736 0x00) (after_setup full_board)))
    = Done tt d' tr
    /\ In (0x24, plane) (captured tr)
    /\ length plane = 4736%nat
    /\ plane !! Z.to_nat (byte_index 9 2) = Some byte
    /\ Z.testbit byte (bit_of_column 9) = negb (is_on COLOR_ON)
    /\ read_pixel 9 2 (buffer_ d') = Some (is_on COLOR_ON).
Proof.
  apply (update_sends_pixel_inverted enough_fuel
           (set_initialized_ true (set_buffer_ (replicate 4736 0x00) (after_setup full_board)))
           9 2 COLOR_ON (le_n _) eq_refl).
  - vm_compute. reflexivity.
  - unfold in_bounds, WIDTH, HEIGHT. lia.
Defined.

(** ** Whole runs *)

(** X13. On a driver with a busy line, [setup()] followed by any positive
    number of updates completes: the flag is false after [setup()] and
    true at the end, the chip receives the one-time configuration once,
    before everything else, followed by one write-and-refresh sequence
    per update, and the reset line is written high by [setup()], high,
    low, high by the configuration and low, high by every write phase. *)
Theorem updates_with_busy_line_configure_once fuel draws passes d line :
  (enough_fuel <= fuel)%nat ->
  busy_pin_ d = Some line ->
  exists d0 tr0 d' tr bufs,
    setup d = Done tt d0 tr0
    /\ initialized_ d0 = false
    /\ updates fuel (draws :: passes) d0 = Done tt d' tr
    /\ initialized_ d' = true
    /\ length bufs = S (length passes)
    /\ captured tr0 = []
    /\ captured tr = configuration_sequence ++ flat_map frame_sequence bufs
    /\ reset_writes (tr0 ++ tr)
       = (if reset_pin_ d then [true] else [])
         ++ (if reset_pin_ d then [true; false; true] else [])
         ++ flat_map (fun _ => if reset_pin_ d then [false; true] else []) bufs.
Proof.
  intros Hfuel Hline.
  destruct (updates_after_setup fuel draws passes d line Hfuel Hline)
    as (d' & tr & bufs & Hrun & Hi0 & Hi & Hn & Hcap & Hw).
  exists (after_setup d), (setup_events d), d', tr, bufs.
  split; [apply setup_runs |]. split; [exact Hi0 |]. split; [exact Hrun |].
  split; [exact Hi |]. split; [exact Hn |].
  split; [unfold setup_events; rewrite Hline; destruct (reset_pin_ d); reflexivity |].
  split; [exact Hcap |].
  rewrite reset_writes_app, Hw. f_equal.
  unfold setup_events. rewrite Hline. destruct (reset_pin_ d); reflexivity.
Qed.

Lemma updates_with_busy_line_configure_once_witness :
  (enough_fuel <= enough_fuel)%nat
  /\ busy_pin_ full_board = Some idle_line
  /\ exists d' tr bufs,
      updates enough_fuel [[(0, 0, COLOR_ON)]; []] (after_setup full_board) = Done tt d' tr
      /\ initialized_ d' = true
      /\ length bufs = 2%nat
      /\ captured tr = configuration_sequence ++ flat_map frame_sequence bufs.
Proof.
  split; [lia |]. split; [reflexivity |].
  destruct (updates_with_busy_line_configure_once enough_fuel [(0, 0, COLOR_ON)] [[]]
              full_board idle_line (le_n _) eq_refl)
    as (d0 & tr0 & d' & tr & bufs & Hsetup & _ & Hrun & Hi & Hn & _ & Hcap & _).
  rewrite setup_runs in Hsetup. injection Hsetup as <- _.
  exists d', tr, bufs. auto.
Defined.

Lemma do_update__out_of_range draws : forall d,
  Forall (fun p => pixel_target (fst (fst p)) (snd (fst p)) = None) draws ->
  do_update_ draws d = Done tt d [].
Proof.
  induction draws as [| [[x y] color] draws IH]; intros d Hall; [reflexivity |].
  apply Forall_cons in Hall as [Hout Hall]. cbn [fst snd] in Hout.
  cbn [do_update_]. unfold bind at 1, draw_pixel at 1, draw_absolute_pixel_internal at 1.
  rewrite Hout. destruct d; cbn [set_buffer_ buffer_ reset_pin_ busy_pin_ initialized_
    clock busy_reads prepend].
  rewrite IH by exact Hall. reflexivity.
Qed.

Lemma bind_ext {A B} (m : M A) (k1 k2 : A -> M B) d :
  (forall a d', k1 a d' = k2 a d') -> bind m k1 d = bind m k2 d.
Proof. intros H. unfold bind. destruct (m d); [rewrite H |..]; reflexivity. Qed.

(** X14. Pixel writes outside the panel do not reach the chip: an update
    whose rendering pass only draws out-of-range pixels behaves exactly
    as an update that draws nothing, whatever the state of the driver. *)
Theorem update_ignores_out_of_range_draws fuel draws d :
  Forall (fun p => let '(x, y, _) := p in x < 0 \/ x >= WIDTH \/ y < 0 \/ y >= HEIGHT) draws ->
  update fuel draws d = update fuel [] d.
Proof.
  intros Hall.
  assert (forall d0, do_update_ draws d0 = do_update_ [] d0) as Hsame.
  { intros d0. rewrite do_update__out_of_range; [reflexivity |].
    eapply Forall_impl; [exact Hall |].
    intros [[x y] color] Hout. cbn [fst snd]. apply pixel_target_out_of_bounds. exact Hout. }
  unfold update. apply bind_ext. intros i d1. apply bind_ext. intros u d2.
  unfold bind. rewrite Hsame. reflexivity.
Qed.

Lemma update_ignores_out_of_range_draws_witness :
  Forall (fun p => let '(x, y, _) := p in x < 0 \/ x >= WIDTH \/ y < 0 \/ y >= HEIGHT)
         [(-1, 0, COLOR_ON); (128, 7, COLOR_OFF); (5, 296, COLOR_ON)]
  /\ update enough_fuel [(-1, 0, COLOR_ON); (128, 7, COLOR_OFF); (5, 296, COLOR_ON)]
            (after_setup full_board)
     = update enough_fuel [] (after_setup full_board).
Proof.
  assert (Forall (fun p => let '(x, y, _) := p in x < 0 \/ x >= WIDTH \/ y < 0 \/ y >= HEIGHT)
                 [(-1, 0, COLOR_ON); (128, 7, COLOR_OFF); (5, 296, COLOR_ON)]) as Hall
    by (repeat constructor; unfold WIDTH, HEIGHT; lia).
  split; [exact Hall |].
  exact (update_ignores_out_of_range_draws enough_fuel _ (after_setup full_board) Hall).
Defined.
